(** * App prompt enhancer: the request/response orchestration of [src/app.js]

    A shallow embedding of the [App] component's logic: the view state held
    by the [useState] slots, the gateway [callGeminiApi], the five
    asynchronous handlers and the change handler of the idea text area.

    JavaScript values are embedded as an inductive type, strings as lists of
    UTF-16 code units.  What the platform provides ([JSON.parse], the number
    type, number/string conversions) is an interface, [Engine]; what the
    network answers is an oracle from requests to outcomes.  The code itself
    is written in a small state-and-exception monad, so that [try], [catch]
    and [finally] read as in the source. *)

From Stdlib Require Import List NArith String Ascii Bool.
From Stdlib Require DecimalString.
Import ListNotations.

Set Implicit Arguments.
Local Set Warnings "-register-all".

(** ** Strings *)

Module Str.

(** A JavaScript string: its UTF-16 code units. *)
Definition jsstring := list N.

(** ASCII literals of the source. *)
Definition lit (s : string) : jsstring :=
  map N_of_ascii (list_ascii_of_string s).

Definition dquote : jsstring := [34%N].
Definition newline : jsstring := [10%N].

(** A word between double quotes. *)
Definition quoted (s : string) : jsstring := dquote ++ lit s ++ dquote.

Definition eqb (a b : jsstring) : bool :=
  if list_eq_dec N.eq_dec a b then true else false.

(** [WhiteSpace] and [LineTerminator] code points of ECMAScript, the set
    [String.prototype.trim] strips. *)
Definition is_space (c : N) : bool :=
  existsb (N.eqb c)
    [9; 10; 11; 12; 13; 32; 160; 5760; 8232; 8233; 8239; 8287; 12288; 65279]%N
  || ((8192 <=? c) && (c <=? 8202))%N.

Fixpoint trimStart (s : jsstring) : jsstring :=
  match s with
  | c :: r => if is_space c then trimStart r else s
  | [] => []
  end.

Definition trimEnd (s : jsstring) : jsstring := List.rev (trimStart (List.rev s)).

(** [s.trim()] *)
Definition trim (s : jsstring) : jsstring := trimEnd (trimStart s).

Definition blank (s : jsstring) : bool := forallb is_space s.

(** [s.substring(0, n)] *)
Definition substring0 (n : nat) (s : jsstring) : jsstring := firstn n s.

(** The decimal digits of an integer, as a template literal prints it. *)
Definition of_N (n : N) : jsstring :=
  lit (DecimalString.NilEmpty.string_of_uint (N.to_uint n)).

(** [hay] contains [needle] as a contiguous substring. *)
Definition embeds (needle hay : jsstring) : Prop :=
  exists pre post, hay = pre ++ needle ++ post.

Fixpoint prefixb (p s : jsstring) : bool :=
  match p, s with
  | [], _ => true
  | a :: p', b :: s' => N.eqb a b && prefixb p' s'
  | _ :: _, [] => false
  end.

(** Executable substring test. *)
Fixpoint embedsb (needle hay : jsstring) : bool :=
  prefixb needle hay ||
  match hay with
  | [] => false
  | _ :: r => embedsb needle r
  end.

End Str.

Import Str.

(** ** Values *)

(** A JavaScript value as the program meets it: what [JSON.parse] returns,
    plus [undefined].  Objects keep their own properties in order; [num] is
    the engine's number type. *)
Inductive jsval (num : Type) : Type :=
| JUndef
| JNull
| JBool (b : bool)
| JNum (n : num)
| JStr (s : jsstring)
| JArr (items : list (jsval num))
| JObj (props : list (jsstring * jsval num)).

Arguments JUndef {num}.
Arguments JNull {num}.
Arguments JBool {num} b.
Arguments JStr {num} s.

(** What the JavaScript engine provides and the program only uses. *)
Class Engine : Type := {
  num : Type;
  (** [+0], [-0] and [NaN] *)
  num_falsy : num -> bool;
  (** [n > 0] *)
  num_gt0 : num -> bool;
  (** [Number.prototype.toString] *)
  num_to_string : num -> jsstring;
  (** [ToNumber] of a string *)
  str_to_num : jsstring -> num;
  (** [JSON.parse text]: the parser's complaint or the value *)
  JSON_parse : jsstring -> jsstring + jsval num
}.

(** A thrown [Error] object, by its [message]. *)
Inductive exn : Type := JsError (message : jsstring).

Definition message (e : exn) : jsstring :=
  match e with JsError m => m end.

(** Completion of an evaluation: a value or a throw. *)
Inductive completion (A : Type) : Type :=
| Val (a : A)
| Thrown (e : exn).

Arguments Thrown {A} e.

Section Values.

Context {E : Engine}.

Definition value := jsval num.

(** The empty string and the empty object, the gateway's placeholders. *)
Definition empty_string : value := JStr [].
Definition empty_object : value := JObj [].

(** [ToBoolean] *)
Definition truthy (v : value) : bool :=
  match v with
  | JUndef | JNull => false
  | JBool b => b
  | JNum n => negb (num_falsy n)
  | JStr s => match s with [] => false | _ => true end
  | JArr _ | JObj _ => true
  end.

Fixpoint lookup (k : jsstring) (props : list (jsstring * value)) : option value :=
  match props with
  | [] => None
  | (k', v) :: r => if Str.eqb k k' then Some v else lookup k r
  end.

Definition TypeError_undefined (k : jsstring) : exn :=
  JsError (lit "Cannot read properties of undefined (reading '" ++ k ++ lit "')").
Definition TypeError_null (k : jsstring) : exn :=
  JsError (lit "Cannot read properties of null (reading '" ++ k ++ lit "')").

(** [v.k] for the property names the program reads (none of them a
    built-in property of strings, arrays, numbers or booleans). *)
Definition get_field (v : value) (k : jsstring) : completion value :=
  match v with
  | JUndef => Thrown (TypeError_undefined k)
  | JNull => Thrown (TypeError_null k)
  | JObj props => Val (match lookup k props with Some x => x | None => JUndef end)
  | _ => Val JUndef
  end.

(** [v[0]] *)
Definition get_first (v : value) : completion value :=
  match v with
  | JUndef => Thrown (TypeError_undefined (lit "0"))
  | JNull => Thrown (TypeError_null (lit "0"))
  | JStr s => Val (match s with c :: _ => JStr [c] | [] => JUndef end)
  | JArr items => Val (match items with x :: _ => x | [] => JUndef end)
  | JObj props => Val (match lookup (lit "0") props with Some x => x | None => JUndef end)
  | _ => Val JUndef
  end.

Definition cbind {A B} (c : completion A) (k : A -> completion B) : completion B :=
  match c with
  | Val a => k a
  | Thrown e => Thrown e
  end.

Definition TypeError_primitive : exn :=
  JsError (lit "Cannot convert object to primitive value").

(** [ToString], as template literals and [JSON.parse] apply it.  A parsed
    object answers ["[object Object]"] through [Object.prototype], unless
    an own property shadows [toString] with a value that cannot be
    called. *)
Fixpoint to_string (v : value) : completion jsstring :=
  match v with
  | JUndef => Val (lit "undefined")
  | JNull => Val (lit "null")
  | JBool true => Val (lit "true")
  | JBool false => Val (lit "false")
  | JNum n => Val (num_to_string n)
  | JStr s => Val s
  | JArr items =>
      (fix join (l : list value) : completion jsstring :=
         match l with
         | [] => Val []
         | x :: r =>
             cbind (match x with JUndef | JNull => Val [] | _ => to_string x end)
               (fun hd =>
                  match r with
                  | [] => Val hd
                  | _ => cbind (join r) (fun tl => Val (hd ++ lit "," ++ tl))
                  end)
         end) items
  | JObj props =>
      match lookup (lit "toString") props with
      | Some _ => Thrown TypeError_primitive
      | None => Val (lit "[object Object]")
      end
  end.

(** [v > 0] *)
Definition gt0 (v : value) : completion bool :=
  match v with
  | JUndef | JNull => Val false
  | JBool b => Val b
  | JNum n => Val (num_gt0 n)
  | JStr s => Val (num_gt0 (str_to_num s))
  | JArr _ | JObj _ => cbind (to_string v) (fun s => Val (num_gt0 (str_to_num s)))
  end.

(** [v.length > 0] *)
Definition length_gt0 (v : value) : completion bool :=
  match v with
  | JUndef => Thrown (TypeError_undefined (lit "length"))
  | JNull => Thrown (TypeError_null (lit "length"))
  | JStr s => Val (match s with [] => false | _ => true end)
  | JArr items => Val (match items with [] => false | _ => true end)
  | JObj props =>
      match lookup (lit "length") props with
      | Some x => gt0 x
      | None => Val false
      end
  | _ => Val false
  end.

Fixpoint join_items (sep : jsstring) (l : list value) : completion jsstring :=
  match l with
  | [] => Val []
  | x :: r =>
      cbind (match x with JUndef | JNull => Val [] | _ => to_string x end)
        (fun hd =>
           match r with
           | [] => Val hd
           | _ => cbind (join_items sep r) (fun tl => Val (hd ++ sep ++ tl))
           end)
  end.

(** [v.join(sep)]: an array method; on any other truthy value the call
    is a [TypeError]. *)
Definition join (sep : jsstring) (v : value) : completion jsstring :=
  match v with
  | JArr items => join_items sep items
  | _ => Thrown (JsError (lit "appPreview.keyFeatures.join is not a function"))
  end.

(** [v.trim()]: a string method; on any other value the call is a
    [TypeError]. *)
Definition trim_value (v : value) : completion jsstring :=
  match v with
  | JStr s => Val (trim s)
  | JUndef => Thrown (TypeError_undefined (lit "trim"))
  | JNull => Thrown (TypeError_null (lit "trim"))
  | _ => Thrown (JsError (lit "customPrompt.trim is not a function"))
  end.

End Values.

(** ** View state *)

Section ViewState.

Context {E : Engine}.

(** The [useState] slots of [App], in declaration order.  [null] is
    [JNull], the initial [''] is [JStr []]. *)
Record State : Type := mkState {
  simpleIdea : jsstring;
  enhancedPrompt : value;
  customPrompt : value;
  appPreview : value;
  isLoadingEnhance : bool;
  isLoadingPreview : bool;
  error : jsstring;
  isPromptEnhanced : bool;
  appNamesSlogans : value;
  monetizationStrategies : value;
  techStackSuggestions : value;
  isLoadingNames : bool;
  isLoadingMonetization : bool;
  isLoadingTechStack : bool
}.

Definition initial_state : State :=
  mkState [] (JStr []) (JStr []) JNull false false [] false
          JNull JNull JNull false false false.

Definition set_simpleIdea (x : jsstring) (s : State) : State :=
  mkState x (enhancedPrompt s) (customPrompt s) (appPreview s)
    (isLoadingEnhance s) (isLoadingPreview s) (error s) (isPromptEnhanced s)
    (appNamesSlogans s) (monetizationStrategies s) (techStackSuggestions s)
    (isLoadingNames s) (isLoadingMonetization s) (isLoadingTechStack s).
Definition set_enhancedPrompt (x : value) (s : State) : State :=
  mkState (simpleIdea s) x (customPrompt s) (appPreview s)
    (isLoadingEnhance s) (isLoadingPreview s) (error s) (isPromptEnhanced s)
    (appNamesSlogans s) (monetizationStrategies s) (techStackSuggestions s)
    (isLoadingNames s) (isLoadingMonetization s) (isLoadingTechStack s).
Definition set_customPrompt (x : value) (s : State) : State :=
  mkState (simpleIdea s) (enhancedPrompt s) x (appPreview s)
    (isLoadingEnhance s) (isLoadingPreview s) (error s) (isPromptEnhanced s)
    (appNamesSlogans s) (monetizationStrategies s) (techStackSuggestions s)
    (isLoadingNames s) (isLoadingMonetization s) (isLoadingTechStack s).
Definition set_appPreview (x : value) (s : State) : State :=
  mkState (simpleIdea s) (enhancedPrompt s) (customPrompt s) x
    (isLoadingEnhance s) (isLoadingPreview s) (error s) (isPromptEnhanced s)
    (appNamesSlogans s) (monetizationStrategies s) (techStackSuggestions s)
    (isLoadingNames s) (isLoadingMonetization s) (isLoadingTechStack s).
Definition set_isLoadingEnhance (x : bool) (s : State) : State :=
  mkState (simpleIdea s) (enhancedPrompt s) (customPrompt s) (appPreview s)
    x (isLoadingPreview s) (error s) (isPromptEnhanced s)
    (appNamesSlogans s) (monetizationStrategies s) (techStackSuggestions s)
    (isLoadingNames s) (isLoadingMonetization s) (isLoadingTechStack s).
Definition set_isLoadingPreview (x : bool) (s : State) : State :=
  mkState (simpleIdea s) (enhancedPrompt s) (customPrompt s) (appPreview s)
    (isLoadingEnhance s) x (error s) (isPromptEnhanced s)
    (appNamesSlogans s) (monetizationStrategies s) (techStackSuggestions s)
    (isLoadingNames s) (isLoadingMonetization s) (isLoadingTechStack s).
Definition set_error (x : jsstring) (s : State) : State :=
  mkState (simpleIdea s) (enhancedPrompt s) (customPrompt s) (appPreview s)
    (isLoadingEnhance s) (isLoadingPreview s) x (isPromptEnhanced s)
    (appNamesSlogans s) (monetizationStrategies s) (techStackSuggestions s)
    (isLoadingNames s) (isLoadingMonetization s) (isLoadingTechStack s).
Definition set_isPromptEnhanced (x : bool) (s : State) : State :=
  mkState (simpleIdea s) (enhancedPrompt s) (customPrompt s) (appPreview s)
    (isLoadingEnhance s) (isLoadingPreview s) (error s) x
    (appNamesSlogans s) (monetizationStrategies s) (techStackSuggestions s)
    (isLoadingNames s) (isLoadingMonetization s) (isLoadingTechStack s).
Definition set_appNamesSlogans (x : value) (s : State) : State :=
  mkState (simpleIdea s) (enhancedPrompt s) (customPrompt s) (appPreview s)
    (isLoadingEnhance s) (isLoadingPreview s) (error s) (isPromptEnhanced s)
    x (monetizationStrategies s) (techStackSuggestions s)
    (isLoadingNames s) (isLoadingMonetization s) (isLoadingTechStack s).
Definition set_monetizationStrategies (x : value) (s : State) : State :=
  mkState (simpleIdea s) (enhancedPrompt s) (customPrompt s) (appPreview s)
    (isLoadingEnhance s) (isLoadingPreview s) (error s) (isPromptEnhanced s)
    (appNamesSlogans s) x (techStackSuggestions s)
    (isLoadingNames s) (isLoadingMonetization s) (isLoadingTechStack s).
Definition set_techStackSuggestions (x : value) (s : State) : State :=
  mkState (simpleIdea s) (enhancedPrompt s) (customPrompt s) (appPreview s)
    (isLoadingEnhance s) (isLoadingPreview s) (error s) (isPromptEnhanced s)
    (appNamesSlogans s) (monetizationStrategies s) x
    (isLoadingNames s) (isLoadingMonetization s) (isLoadingTechStack s).
Definition set_isLoadingNames (x : bool) (s : State) : State :=
  mkState (simpleIdea s) (enhancedPrompt s) (customPrompt s) (appPreview s)
    (isLoadingEnhance s) (isLoadingPreview s) (error s) (isPromptEnhanced s)
    (appNamesSlogans s) (monetizationStrategies s) (techStackSuggestions s)
    x (isLoadingMonetization s) (isLoadingTechStack s).
Definition set_isLoadingMonetization (x : bool) (s : State) : State :=
  mkState (simpleIdea s) (enhancedPrompt s) (customPrompt s) (appPreview s)
    (isLoadingEnhance s) (isLoadingPreview s) (error s) (isPromptEnhanced s)
    (appNamesSlogans s) (monetizationStrategies s) (techStackSuggestions s)
    (isLoadingNames s) x (isLoadingTechStack s).
Definition set_isLoadingTechStack (x : bool) (s : State) : State :=
  mkState (simpleIdea s) (enhancedPrompt s) (customPrompt s) (appPreview s)
    (isLoadingEnhance s) (isLoadingPreview s) (error s) (isPromptEnhanced s)
    (appNamesSlogans s) (monetizationStrategies s) (techStackSuggestions s)
    (isLoadingNames s) (isLoadingMonetization s) x.

End ViewState.

(** ** Requests and the network *)

(** The schema vocabulary of the structured replies. *)
Inductive Schema : Type :=
| STRING
| ARRAY (items : Schema)
| OBJECT (properties : list (string * Schema)) (required : option (list string)).

Record GenerationConfig : Type := {
  responseMimeType : jsstring;
  responseSchema : Schema
}.

(** [{ contents: [{ role: 'user', parts: [{ text }] }], generationConfig? }] *)
Record Payload : Type := {
  contents : jsstring;
  generationConfig : option GenerationConfig
}.

(** One [fetch(url, { method: 'POST', headers, body: JSON.stringify(payload) })]. *)
Record Request : Type := {
  url : jsstring;
  body : Payload
}.

(** Reading the body of a response: its text, or a failure of the stream. *)
Inductive BodyRead : Type :=
| BodyText (text : jsstring)
| BodyFailed (e : exn).

Record Response : Type := {
  status : N;
  statusText : jsstring;
  payload : BodyRead
}.

(** [response.ok]: the status is in the range 200-299. *)
Definition ok (r : Response) : bool :=
  ((200 <=? status r) && (status r <=? 299))%N.

(** What [await fetch(...)] settles to. *)
Inductive FetchOutcome : Type :=
| Rejected (e : exn)
| Responded (r : Response).

(** The sections [scrollToRef] can be asked to reveal. *)
Inductive Ref : Type := enhancedPromptRef | appPreviewRef.

(** ** Effects *)

Section Effects.

Context {E : Engine}.

(** The world a handler acts on: the view state, the requests sent so
    far (most recent first) and the scroll timers scheduled so far. *)
Record World : Type := mkWorld {
  view : State;
  sent : list Request;
  timers : list Ref
}.

(** A computation: acts on the world and completes with a value or a
    throw. *)
Definition M (A : Type) : Type := World -> World * completion A.

Definition ret {A} (a : A) : M A := fun w => (w, Val a).

Definition throw {A} (e : exn) : M A := fun w => (w, Thrown e).

Definition bind {A B} (c : M A) (k : A -> M B) : M B :=
  fun w =>
    match c w with
    | (w', Val a) => k a w'
    | (w', Thrown e) => (w', Thrown e)
    end.

Definition lift {A} (c : completion A) : M A := fun w => (w, c).

(** [try { body } catch (err) { handler }] *)
Definition try_catch {A} (body : M A) (handler : exn -> M A) : M A :=
  fun w =>
    match body w with
    | (w', Val a) => (w', Val a)
    | (w', Thrown e) => handler e w'
    end.

(** [try { body } finally { final }] *)
Definition try_finally {A} (body : M A) (final : M unit) : M A :=
  fun w =>
    match body w with
    | (w', r) =>
        match final w' with
        | (w'', Val _) => (w'', r)
        | (w'', Thrown e) => (w'', Thrown e)
        end
    end.

Definition get_view : M State := fun w => (w, Val (view w)).

Definition modify (f : State -> State) : M unit :=
  fun w => (mkWorld (f (view w)) (sent w) (timers w), Val tt).

Definition setSimpleIdea x := modify (set_simpleIdea x).
Definition setEnhancedPrompt x := modify (set_enhancedPrompt x).
Definition setCustomPrompt x := modify (set_customPrompt x).
Definition setAppPreview x := modify (set_appPreview x).
Definition setIsLoadingEnhance x := modify (set_isLoadingEnhance x).
Definition setIsLoadingPreview x := modify (set_isLoadingPreview x).
Definition setError x := modify (set_error x).
Definition setIsPromptEnhanced x := modify (set_isPromptEnhanced x).
Definition setAppNamesSlogans x := modify (set_appNamesSlogans x).
Definition setMonetizationStrategies x := modify (set_monetizationStrategies x).
Definition setTechStackSuggestions x := modify (set_techStackSuggestions x).
Definition setIsLoadingNames x := modify (set_isLoadingNames x).
Definition setIsLoadingMonetization x := modify (set_isLoadingMonetization x).
Definition setIsLoadingTechStack x := modify (set_isLoadingTechStack x).

(** [setTimeout(() => scrollToRef(ref), 100)] *)
Definition setTimeout_scrollToRef (r : Ref) : M unit :=
  fun w => (mkWorld (view w) (sent w) (r :: timers w), Val tt).

(** The network: what each request settles to. *)
Variable net : Request -> FetchOutcome.

(** [await fetch(...)] *)
Definition fetch (req : Request) : M Response :=
  fun w =>
    (mkWorld (view w) (req :: sent w) (timers w),
     match net req with
     | Rejected e => Thrown e
     | Responded r => Val r
     end).

(** [JSON.parse(text)] *)
Definition parse (text : jsstring) : completion value :=
  match JSON_parse text with
  | inl complaint => Thrown (JsError complaint)
  | inr v => Val v
  end.

(** [await response.text()] *)
Definition response_text (r : Response) : completion jsstring :=
  match payload r with
  | BodyText t => Val t
  | BodyFailed e => Thrown e
  end.

(** [await response.json()] *)
Definition response_json (r : Response) : completion value :=
  cbind (response_text r) parse.

End Effects.

Declare Scope monad_scope.
Delimit Scope monad_scope with monad.
Notation "x <- c1 ;; c2" := (bind c1 (fun x => c2))
  (at level 61, c1 at next level, right associativity) : monad_scope.
Notation "c1 ;; c2" := (bind c1 (fun _ => c2))
  (at level 61, right associativity) : monad_scope.
Open Scope monad_scope.

(** ** The gateway *)

Section Gateway.

Context {E : Engine}.
Variable net : Request -> FetchOutcome.

(** Clears any previous error messages. *)
Definition clearError : M unit := setError [].

Definition default_modelName : jsstring := lit "gemini-2.0-flash".

(** [errorData.error?.message || response.statusText], as the template
    literal prints it. *)
Definition error_detail (errorData : value) (response : Response) : completion jsstring :=
  cbind (get_field errorData (lit "error")) (fun err =>
  cbind (match err with
         | JUndef | JNull => Val JUndef
         | _ => get_field err (lit "message")
         end) (fun msg =>
  if truthy msg then to_string msg else Val (statusText response))).

(** The condition of the [if] that guards the extraction:
    [result.candidates && result.candidates.length > 0 &&
     result.candidates[0].content && result.candidates[0].content.parts &&
     result.candidates[0].content.parts.length > 0]. *)
Definition has_content (result : value) : completion bool :=
  cbind (get_field result (lit "candidates")) (fun candidates =>
  if negb (truthy candidates) then Val false else
  cbind (length_gt0 candidates) (fun some_candidate =>
  if negb some_candidate then Val false else
  cbind (get_first candidates) (fun candidate =>
  cbind (get_field candidate (lit "content")) (fun content =>
  if negb (truthy content) then Val false else
  cbind (get_field content (lit "parts")) (fun parts =>
  if negb (truthy parts) then Val false else
  length_gt0 parts))))).

(** [result.candidates[0].content.parts[0].text] *)
Definition first_text (result : value) : completion value :=
  cbind (get_field result (lit "candidates")) (fun candidates =>
  cbind (get_first candidates) (fun candidate =>
  cbind (get_field candidate (lit "content")) (fun content =>
  cbind (get_field content (lit "parts")) (fun parts =>
  cbind (get_first parts) (fun part =>
  get_field part (lit "text")))))).

(** What the gateway hands back when it failed. *)
Definition placeholder (responseSchema : option Schema) : value :=
  match responseSchema with
  | Some _ => empty_object
  | None => empty_string
  end.

(** The request the gateway sends: the single user turn, the generation
    configuration when a schema is supplied, and the model's URL. *)
Definition api_request (promptText modelName : jsstring)
    (responseSchema : option Schema) : Request :=
  let payload :=
    {| contents := promptText;
       generationConfig :=
         match responseSchema with
         | Some schema =>
             Some {| responseMimeType := lit "application/json";
                     responseSchema := schema |}
         | None => None
         end |} in
  let apiKey : jsstring := [] in
  let apiUrl :=
    lit "https://generativelanguage.googleapis.com/v1beta/models/"
    ++ modelName ++ lit ":generateContent?key=" ++ apiKey in
  {| url := apiUrl; body := payload |}.

(** The body of the gateway's [try]. *)
Definition callGeminiApi_try (request : Request)
    (responseSchema : option Schema) : M value :=
  response <- fetch net request ;;
  (if negb (ok response) then
     errorData <- lift (response_json response) ;;
     detail <- lift (error_detail errorData response) ;;
     throw (JsError (lit "API error: " ++ of_N (status response)
                       ++ lit " - " ++ detail))
   else ret tt) ;;
  rawResponseText <- lift (response_text response) ;;
  (match rawResponseText with
   | [] => throw (JsError (lit "Empty response from AI. Please try again."))
   | _ => ret tt
   end) ;;
  result <- try_catch (lift (parse rawResponseText))
              (fun jsonParseError =>
                 throw (JsError (lit "AI returned invalid response format: "
                                   ++ substring0 100 rawResponseText
                                   ++ lit "... (Error: "
                                   ++ message jsonParseError ++ lit ")"))) ;;
  usable <- lift (has_content result) ;;
  if usable then
    textResult <- lift (first_text result) ;;
    match responseSchema with
    | Some _ =>
        try_catch (lift (cbind (to_string textResult) parse))
          (fun jsonError =>
             throw (JsError (lit "AI returned invalid JSON within its content. Please try again.")))
    | None => ret textResult
    end
  else
    throw (JsError (lit "Unexpected API response structure or no content generated.")).

(** The message the gateway's [catch] reports for a caught error. *)
Definition failure_message (err : exn) : jsstring :=
  lit "Failed to connect to AI: " ++ message err ++ lit ". Please try again.".

(** Calls the Gemini API to generate content: resolves with the
    generated text or the parsed JSON value.  ([console.error] only
    logs and is left out.) *)
Definition callGeminiApi (promptText modelName : jsstring)
    (responseSchema : option Schema) : M value :=
  clearError ;;
  try_catch
    (callGeminiApi_try (api_request promptText modelName responseSchema)
                       responseSchema)
    (fun err =>
       setError (failure_message err) ;;
       ret (placeholder responseSchema)).

(** What the gateway's [try] completes with, as a function of what the
    network answered: the same steps, read off the response. *)
Definition settle (responseSchema : option Schema) (outcome : FetchOutcome)
    : completion value :=
  match outcome with
  | Rejected e => Thrown e
  | Responded response =>
      cbind (if negb (ok response) then
               cbind (response_json response) (fun errorData =>
               cbind (error_detail errorData response) (fun detail =>
               Thrown (JsError (lit "API error: " ++ of_N (status response)
                                  ++ lit " - " ++ detail))))
             else Val tt) (fun _ =>
      cbind (response_text response) (fun rawResponseText =>
      cbind (match rawResponseText with
             | [] => Thrown (JsError (lit "Empty response from AI. Please try again."))
             | _ => Val tt
             end) (fun _ =>
      cbind (match parse rawResponseText with
             | Val v => Val v
             | Thrown jsonParseError =>
                 Thrown (JsError (lit "AI returned invalid response format: "
                                    ++ substring0 100 rawResponseText
                                    ++ lit "... (Error: "
                                    ++ message jsonParseError ++ lit ")"))
             end) (fun result =>
      cbind (has_content result) (fun usable =>
      if usable then
        cbind (first_text result) (fun textResult =>
        match responseSchema with
        | Some _ =>
            match cbind (to_string textResult) parse with
            | Val v => Val v
            | Thrown _ =>
                Thrown (JsError (lit "AI returned invalid JSON within its content. Please try again."))
            end
        | None => Val textResult
        end)
      else
        Thrown (JsError (lit "Unexpected API response structure or no content generated.")))))))
  end.

(** The failures of one request/response cycle: a non-success HTTP
    status; an empty body; an outer envelope that does not parse; an
    envelope without the candidate/content path; with a schema, an inner
    text that does not parse. *)
Inductive Failure (responseSchema : option Schema) : FetchOutcome -> Prop :=
| non_success_status (r : Response) :
    ok r = false ->
    Failure responseSchema (Responded r)
| empty_body (r : Response) :
    ok r = true -> payload r = BodyText [] ->
    Failure responseSchema (Responded r)
| unparseable_envelope (r : Response) (text complaint : jsstring) :
    ok r = true -> payload r = BodyText text -> text <> [] ->
    JSON_parse text = inl complaint ->
    Failure responseSchema (Responded r)
| missing_content_path (r : Response) (text : jsstring) (result : value) :
    ok r = true -> payload r = BodyText text -> text <> [] ->
    JSON_parse text = inr result ->
    has_content result <> Val true ->
    Failure responseSchema (Responded r)
| unparseable_inner (r : Response) (text : jsstring) (result textResult : value)
    (schema : Schema) (e : exn) :
    ok r = true -> payload r = BodyText text -> text <> [] ->
    JSON_parse text = inr result ->
    has_content result = Val true ->
    first_text result = Val textResult ->
    responseSchema = Some schema ->
    cbind (to_string textResult) parse = Thrown e ->
    Failure responseSchema (Responded r).

End Gateway.

(** ** Event handlers *)

Section Handlers.

Context {E : Engine}.

(** The gateway the handlers await; the application passes
    [callGeminiApi]. *)
Variable gateway : jsstring -> jsstring -> option Schema -> M value.

Definition enhancementPrompt (simpleIdea : jsstring) : jsstring :=
  lit "You are an expert AI app developer. A user has a simple idea for an app. Your task is to expand this simple idea into a comprehensive, detailed, and inclusive prompt that can be used to generate a full app specification. Consider aspects like target audience, core features, key functionalities, potential user roles, non-functional requirements (performance, security, scalability), UI/UX considerations, and monetization strategies if applicable."
  ++ newline
  ++ lit "        The output should be a well-structured prompt, ready to be fed into another AI model for app generation."
  ++ newline
  ++ lit "        User's simple idea: '" ++ simpleIdea ++ lit "'".

(** The [try ... finally] of [handleEnhancePrompt]. *)
Definition handleEnhancePrompt_try (enhancementPrompt : jsstring) : M unit :=
  try_finally
    (generatedPrompt <- gateway enhancementPrompt default_modelName None ;;
     if truthy generatedPrompt then
       setEnhancedPrompt generatedPrompt ;;
       setCustomPrompt generatedPrompt ;;
       setIsPromptEnhanced true ;;
       setTimeout_scrollToRef enhancedPromptRef
     else ret tt)
    (setIsLoadingEnhance false).

(** Handles the prompt enhancement process. *)
Definition handleEnhancePrompt : M unit :=
  render <- get_view ;;
  match trim (simpleIdea render) with
  | [] => setError (lit "Please enter a simple idea to enhance.")
  | _ =>
      setIsLoadingEnhance true ;;
      setAppPreview JNull ;;
      setEnhancedPrompt (JStr []) ;;
      setCustomPrompt (JStr []) ;;
      setAppNamesSlogans JNull ;;
      setMonetizationStrategies JNull ;;
      setTechStackSuggestions JNull ;;
      handleEnhancePrompt_try (enhancementPrompt (simpleIdea render))
  end.

Definition appPreviewGenerationPrompt (promptToUse : jsstring) : jsstring :=
  lit "Based on the following detailed app prompt, describe a conceptual overview and key features of the application. Provide the output as a JSON object with the following keys:"
  ++ newline
  ++ lit "- " ++ quoted "appName"
  ++ lit ": (string) A suggested short, descriptive name for the app."
  ++ newline
  ++ lit "- " ++ quoted "tagline"
  ++ lit ": (string) A short, catchy phrase summarizing the app."
  ++ newline
  ++ lit "- " ++ quoted "description"
  ++ lit ": (string) A detailed overview of what the app does, who it's for, and its primary functionalities."
  ++ newline
  ++ lit "- " ++ quoted "keyFeatures"
  ++ lit ": (array of strings) A list of the most important features."
  ++ newline
  ++ lit "- " ++ quoted "targetAudience"
  ++ lit ": (string) The primary users the app is designed for."
  ++ newline ++ newline
  ++ lit "Ensure the output is valid JSON."
  ++ newline
  ++ lit "Detailed App Prompt: '" ++ promptToUse ++ lit "'".

Definition appPreviewSchema : Schema :=
  OBJECT
    [("appName", STRING); ("tagline", STRING); ("description", STRING);
     ("keyFeatures", ARRAY STRING); ("targetAudience", STRING)]%string
    (Some ["appName"; "tagline"; "description"; "keyFeatures"; "targetAudience"]%string).

(** The [try ... catch ... finally] of [handleGenerateAppPreview]. *)
Definition handleGenerateAppPreview_try (appPreviewGenerationPrompt : jsstring) : M unit :=
  try_finally
    (try_catch
       (parsedPreview <- gateway appPreviewGenerationPrompt
                           (lit "gemini-2.0-flash") (Some appPreviewSchema) ;;
        description <- lift (if truthy parsedPreview
                             then get_field parsedPreview (lit "description")
                             else Val parsedPreview) ;;
        if truthy description then
          setAppPreview parsedPreview ;;
          setTimeout_scrollToRef appPreviewRef
        else
          setError (lit "Failed to generate a structured app preview. The AI might not have returned complete data or valid JSON.") ;;
          setAppPreview JNull)
       (fun e => setAppPreview JNull))
    (setIsLoadingPreview false).

(** Handles the app preview generation process. *)
Definition handleGenerateAppPreview : M unit :=
  render <- get_view ;;
  promptToUse <- lift (trim_value (customPrompt render)) ;;
  match promptToUse with
  | [] => setError (lit "Please enhance a prompt first or provide a custom prompt.")
  | _ =>
      setIsLoadingPreview true ;;
      setAppPreview JNull ;;
      setAppNamesSlogans JNull ;;
      setMonetizationStrategies JNull ;;
      setTechStackSuggestions JNull ;;
      handleGenerateAppPreview_try (appPreviewGenerationPrompt promptToUse)
  end.

(** [!appPreview || !appPreview.description] *)
Definition no_description (appPreview : value) : completion bool :=
  if negb (truthy appPreview) then Val true
  else cbind (get_field appPreview (lit "description"))
             (fun description => Val (negb (truthy description))).

Definition namesSlogansPrompt (description : jsstring) : jsstring :=
  lit "Generate 5 creative and catchy app names and 5 taglines for an app based on the following description. Provide the output as a JSON object with two keys: "
  ++ quoted "names" ++ lit " (array of strings) and "
  ++ quoted "taglines" ++ lit " (array of strings)."
  ++ newline
  ++ lit "        App Description: " ++ description.

Definition namesSlogansSchema : Schema :=
  OBJECT [("names", ARRAY STRING); ("taglines", ARRAY STRING)]%string
    (Some ["names"; "taglines"]%string).

(** The [try ... finally] of [handleGenerateNamesSlogans]. *)
Definition handleGenerateNamesSlogans_try (namesSlogansPrompt : jsstring) : M unit :=
  try_finally
    (result <- gateway namesSlogansPrompt
                 (lit "gemini-2.0-flash") (Some namesSlogansSchema) ;;
     names <- lift (if truthy result then get_field result (lit "names")
                    else Val result) ;;
     taglines <- lift (if truthy names then get_field result (lit "taglines")
                       else Val names) ;;
     if truthy taglines then setAppNamesSlogans result
     else
       setError (lit "Failed to generate names/slogans. AI response was incomplete or malformed.") ;;
       setAppNamesSlogans JNull)
    (setIsLoadingNames false).

(** Generates app names and slogans. *)
Definition handleGenerateNamesSlogans : M unit :=
  render <- get_view ;;
  missing <- lift (no_description (appPreview render)) ;;
  if missing then setError (lit "Please generate an app preview first.")
  else
    setIsLoadingNames true ;;
    setAppNamesSlogans JNull ;;
    description <- lift (cbind (get_field (appPreview render) (lit "description"))
                               to_string) ;;
    handleGenerateNamesSlogans_try (namesSlogansPrompt description).

Definition monetizationPrompt (description : jsstring) : jsstring :=
  lit "Based on the following app description, suggest 3-5 potential monetization strategies. For each strategy, briefly explain how it would work for this app. Provide the output as a JSON object with a single key "
  ++ quoted "strategies" ++ lit " (array of objects, each with "
  ++ quoted "name" ++ lit " and " ++ quoted "description" ++ lit " keys)."
  ++ newline
  ++ lit "        App Description: " ++ description.

Definition monetizationSchema : Schema :=
  OBJECT
    [("strategies",
      ARRAY (OBJECT [("name", STRING); ("description", STRING)]
                    (Some ["name"; "description"])))]%string
    (Some ["strategies"]%string).

(** The [try ... finally] of [handleGenerateMonetizationStrategies]. *)
Definition handleGenerateMonetizationStrategies_try (monetizationPrompt : jsstring) : M unit :=
  try_finally
    (result <- gateway monetizationPrompt
                 (lit "gemini-2.0-flash") (Some monetizationSchema) ;;
     strategies <- lift (if truthy result then get_field result (lit "strategies")
                         else Val result) ;;
     if truthy strategies then setMonetizationStrategies strategies
     else
       setError (lit "Failed to generate monetization strategies. AI response was incomplete or malformed.") ;;
       setMonetizationStrategies JNull)
    (setIsLoadingMonetization false).

(** Generates monetization strategies. *)
Definition handleGenerateMonetizationStrategies : M unit :=
  render <- get_view ;;
  missing <- lift (no_description (appPreview render)) ;;
  if missing then setError (lit "Please generate an app preview first.")
  else
    setIsLoadingMonetization true ;;
    setMonetizationStrategies JNull ;;
    description <- lift (cbind (get_field (appPreview render) (lit "description"))
                               to_string) ;;
    handleGenerateMonetizationStrategies_try (monetizationPrompt description).

Definition techStackPrompt (description features : jsstring) : jsstring :=
  lit "Based on the following app description and its key features, suggest a high-level technology stack (e.g., Frontend, Backend, Database, Mobile). Focus on common, modern technologies suitable for the described app. Provide the output as a JSON object with keys like "
  ++ quoted "frontend" ++ lit ", " ++ quoted "backend" ++ lit ", "
  ++ quoted "database" ++ lit ", " ++ quoted "mobile"
  ++ lit " (each a string or array of strings, or null if not applicable). If a category is not directly relevant, you can omit it or set its value to null/empty array."
  ++ newline
  ++ lit "        App Description: " ++ description
  ++ newline
  ++ lit "        Key Features: " ++ features.

Definition techStackSchema : Schema :=
  OBJECT
    [("frontend", STRING); ("backend", STRING); ("database", STRING);
     ("mobile", STRING)]%string
    None.

(** The [try ... finally] of [handleGenerateTechStack]. *)
Definition handleGenerateTechStack_try (techStackPrompt : jsstring) : M unit :=
  try_finally
    (result <- gateway techStackPrompt
                 (lit "gemini-2.0-flash") (Some techStackSchema) ;;
     if truthy result then setTechStackSuggestions result
     else
       setError (lit "Failed to generate tech stack suggestions. AI response was incomplete or malformed.") ;;
       setTechStackSuggestions JNull)
    (setIsLoadingTechStack false).

(** Generates high-level tech stack suggestions. *)
Definition handleGenerateTechStack : M unit :=
  render <- get_view ;;
  missing <- lift (no_description (appPreview render)) ;;
  if missing then setError (lit "Please generate an app preview first.")
  else
    setIsLoadingTechStack true ;;
    setTechStackSuggestions JNull ;;
    description <- lift (cbind (get_field (appPreview render) (lit "description"))
                               to_string) ;;
    features <- lift (cbind (get_field (appPreview render) (lit "keyFeatures"))
                        (fun keyFeatures =>
                           if truthy keyFeatures then join (lit ", ") keyFeatures
                           else Val (lit "Not provided"))) ;;
    handleGenerateTechStack_try (techStackPrompt description features).

(** [onChange] of the idea text area. *)
Definition simpleIdea_onChange (target_value : jsstring) : M unit :=
  setSimpleIdea target_value ;;
  clearError ;;
  setIsPromptEnhanced false ;;
  setAppPreview JNull ;;
  setEnhancedPrompt (JStr []) ;;
  setCustomPrompt (JStr []) ;;
  setAppNamesSlogans JNull ;;
  setMonetizationStrategies JNull ;;
  setTechStackSuggestions JNull.

(** [onChange] of the enhanced-prompt text area. *)
Definition customPrompt_onChange (target_value : jsstring) : M unit :=
  setCustomPrompt (JStr target_value).

End Handlers.

(** ** The five operations *)

Inductive Op : Type := Enhance | Preview | Names | Monetization | TechStack.

Section Operations.

Context {E : Engine}.

(** The handler of an operation, over the gateway it awaits. *)
Definition handler (gateway : jsstring -> jsstring -> option Schema -> M value)
    (op : Op) : M unit :=
  match op with
  | Enhance => handleEnhancePrompt gateway
  | Preview => handleGenerateAppPreview gateway
  | Names => handleGenerateNamesSlogans gateway
  | Monetization => handleGenerateMonetizationStrategies gateway
  | TechStack => handleGenerateTechStack gateway
  end.

(** Its [try] statement, entered with the prompt built. *)
Definition handler_try (gateway : jsstring -> jsstring -> option Schema -> M value)
    (op : Op) : jsstring -> M unit :=
  match op with
  | Enhance => handleEnhancePrompt_try gateway
  | Preview => handleGenerateAppPreview_try gateway
  | Names => handleGenerateNamesSlogans_try gateway
  | Monetization => handleGenerateMonetizationStrategies_try gateway
  | TechStack => handleGenerateTechStack_try gateway
  end.

(** The schema an operation passes to the gateway. *)
Definition schema_of (op : Op) : option Schema :=
  match op with
  | Enhance => None
  | Preview => Some appPreviewSchema
  | Names => Some namesSlogansSchema
  | Monetization => Some monetizationSchema
  | TechStack => Some techStackSchema
  end.

(** Its loading flag. *)
Definition loading (op : Op) (s : State) : bool :=
  match op with
  | Enhance => isLoadingEnhance s
  | Preview => isLoadingPreview s
  | Names => isLoadingNames s
  | Monetization => isLoadingMonetization s
  | TechStack => isLoadingTechStack s
  end.

(** Its result slot. *)
Definition result_slot (op : Op) (s : State) : value :=
  match op with
  | Enhance => enhancedPrompt s
  | Preview => appPreview s
  | Names => appNamesSlogans s
  | Monetization => monetizationStrategies s
  | TechStack => techStackSuggestions s
  end.

(** The guidance shown when its precondition fails. *)
Definition guidance (op : Op) : jsstring :=
  match op with
  | Enhance => lit "Please enter a simple idea to enhance."
  | Preview => lit "Please enhance a prompt first or provide a custom prompt."
  | Names | Monetization | TechStack => lit "Please generate an app preview first."
  end.

(** The message of a handler's own failure branch; the enhance handler
    has none. *)
Definition incomplete_message (op : Op) : jsstring :=
  match op with
  | Enhance => []
  | Preview => lit "Failed to generate a structured app preview. The AI might not have returned complete data or valid JSON."
  | Names => lit "Failed to generate names/slogans. AI response was incomplete or malformed."
  | Monetization => lit "Failed to generate monetization strategies. AI response was incomplete or malformed."
  | TechStack => lit "Failed to generate tech stack suggestions. AI response was incomplete or malformed."
  end.

(** A slot that holds nothing: [null] (or [undefined]). *)
Definition absent (v : value) : bool :=
  match v with
  | JUndef | JNull => true
  | _ => false
  end.

(** [v.k], [undefined] where reading it would throw. *)
Definition field (v : value) (k : string) : value :=
  match get_field v (lit k) with
  | Val x => x
  | Thrown _ => JUndef
  end.

(** The precondition of an operation fails: the idea, or the editable
    prompt, is empty or only whitespace; the preview, or its
    description, is absent. *)
Definition precondition_fails (op : Op) (s : State) : bool :=
  match op with
  | Enhance => blank (simpleIdea s)
  | Preview =>
      match customPrompt s with
      | JStr t => blank t
      | _ => false
      end
  | Names | Monetization | TechStack =>
      absent (appPreview s) || absent (field (appPreview s) "description")
  end.

(** The handler up to its [try]: [Val None] when the precondition check
    turns the trigger down, [Val (Some prompt)] when the gateway is
    called with [prompt], a throw when building the prompt throws. *)
Definition prepare (op : Op) (s : State) : completion (option jsstring) :=
  match op with
  | Enhance =>
      match trim (simpleIdea s) with
      | [] => Val None
      | _ => Val (Some (enhancementPrompt (simpleIdea s)))
      end
  | Preview =>
      cbind (trim_value (customPrompt s)) (fun promptToUse =>
      match promptToUse with
      | [] => Val None
      | _ => Val (Some (appPreviewGenerationPrompt promptToUse))
      end)
  | Names =>
      cbind (no_description (appPreview s)) (fun missing =>
      if missing then Val None else
      cbind (cbind (get_field (appPreview s) (lit "description")) to_string)
        (fun description => Val (Some (namesSlogansPrompt description))))
  | Monetization =>
      cbind (no_description (appPreview s)) (fun missing =>
      if missing then Val None else
      cbind (cbind (get_field (appPreview s) (lit "description")) to_string)
        (fun description => Val (Some (monetizationPrompt description))))
  | TechStack =>
      cbind (no_description (appPreview s)) (fun missing =>
      if missing then Val None else
      cbind (cbind (get_field (appPreview s) (lit "description")) to_string)
        (fun description =>
      cbind (cbind (get_field (appPreview s) (lit "keyFeatures"))
               (fun keyFeatures =>
                  if truthy keyFeatures then join (lit ", ") keyFeatures
                  else Val (lit "Not provided")))
        (fun features => Val (Some (techStackPrompt description features)))))
  end.

(** The view state on entering Loading: the flag is raised, the
    operation's own slot and the slots downstream of it are cleared. *)
Definition enter (op : Op) (s : State) : State :=
  match op with
  | Enhance =>
      set_techStackSuggestions JNull (set_monetizationStrategies JNull
        (set_appNamesSlogans JNull (set_customPrompt (JStr [])
          (set_enhancedPrompt (JStr []) (set_appPreview JNull
            (set_isLoadingEnhance true s))))))
  | Preview =>
      set_techStackSuggestions JNull (set_monetizationStrategies JNull
        (set_appNamesSlogans JNull (set_appPreview JNull
          (set_isLoadingPreview true s))))
  | Names => set_appNamesSlogans JNull (set_isLoadingNames true s)
  | Monetization => set_monetizationStrategies JNull (set_isLoadingMonetization true s)
  | TechStack => set_techStackSuggestions JNull (set_isLoadingTechStack true s)
  end.

Definition with_view (f : State -> State) (w : World) : World :=
  mkWorld (f (view w)) (sent w) (timers w).

(** The result holds what the handler's [if] asks for: a non-empty text;
    a description; names and taglines; strategies; anything truthy. *)
Definition usable (op : Op) (r : value) : bool :=
  match op with
  | Enhance => truthy r
  | Preview => truthy r && truthy (field r "description")
  | Names => truthy r && truthy (field r "names") && truthy (field r "taglines")
  | Monetization => truthy r && truthy (field r "strategies")
  | TechStack => truthy r
  end.

(** The view update of a handler's [finally]. *)
Definition lowers (op : Op) : State -> State :=
  match op with
  | Enhance => set_isLoadingEnhance false
  | Preview => set_isLoadingPreview false
  | Names => set_isLoadingNames false
  | Monetization => set_isLoadingMonetization false
  | TechStack => set_isLoadingTechStack false
  end.

(** The view update of a handler's failure branch: its own message
    and its slot reset to [null]; the enhance handler has no such
    branch. *)
Definition reject (op : Op) (s : State) : State :=
  match op with
  | Enhance => s
  | Preview => set_appPreview JNull (set_error (incomplete_message Preview) s)
  | Names => set_appNamesSlogans JNull (set_error (incomplete_message Names) s)
  | Monetization =>
      set_monetizationStrategies JNull (set_error (incomplete_message Monetization) s)
  | TechStack =>
      set_techStackSuggestions JNull (set_error (incomplete_message TechStack) s)
  end.

(** A computation keeps a property of the view. *)
Definition preserves (P : State -> Prop) {A} (c : M A) : Prop :=
  forall w, P (view w) -> P (view (fst (c w))).

End Operations.

(** ** A concrete engine and concrete networks

    The examples below run the model on a small engine: numbers are naturals
    and [JSON.parse] knows the few texts the examples send through it; on
    any other text it complains as V8 does about a text whose first
    character cannot start a JSON value. *)

Module Demo.

Definition habit_text : jsstring :=
  lit "A habit tracker with streaks, reminders and weekly reports.".

(** The reply envelope carrying [habit_text] as its first part. *)
Definition envelope : jsstring :=
  lit "{" ++ quoted "candidates" ++ lit ":[{" ++ quoted "content" ++ lit ":{"
  ++ quoted "parts" ++ lit ":[{" ++ quoted "text" ++ lit ":"
  ++ dquote ++ habit_text ++ dquote ++ lit "}]}}]}".

Definition envelope_value : jsval N :=
  JObj [(lit "candidates",
         JArr [JObj [(lit "content",
                      JObj [(lit "parts",
                             JArr [JObj [(lit "text", JStr habit_text)]])])]])].

(** An error body with a reason. *)
Definition quota_body : jsstring :=
  lit "{" ++ quoted "error" ++ lit ":{" ++ quoted "message" ++ lit ":"
  ++ quoted "Quota exceeded" ++ lit "}}".

Definition quota_value : jsval N :=
  JObj [(lit "error", JObj [(lit "message", JStr (lit "Quota exceeded"))])].

Definition parse_known (text : jsstring) : jsstring + jsval N :=
  if Str.eqb text envelope then inr envelope_value
  else if Str.eqb text quota_body then inr quota_value
  else match text with
       | [] => inl (lit "Unexpected end of JSON input")
       | c :: _ => inl (lit "Unexpected token " ++ [c] ++ lit " in JSON at position 0")
       end.

Definition engine : Engine :=
  {| num := N;
     num_falsy := N.eqb 0;
     num_gt0 := N.ltb 0;
     num_to_string := of_N;
     str_to_num := fun _ => 0%N;
     JSON_parse := parse_known |}.

(** The network is down: [fetch] rejects. *)
Definition offline (_ : Request) : FetchOutcome :=
  Rejected (JsError (lit "Failed to fetch")).

(** The service answers 200 with the envelope. *)
Definition answering (_ : Request) : FetchOutcome :=
  Responded {| status := 200; statusText := lit "OK"; payload := BodyText envelope |}.

(** The service answers 200 with an empty body. *)
Definition silent (_ : Request) : FetchOutcome :=
  Responded {| status := 200; statusText := lit "OK"; payload := BodyText [] |}.

(** The service answers with a given status and a plain-text error page. *)
Definition failing (code : N) (_ : Request) : FetchOutcome :=
  Responded {| status := code; statusText := lit "Internal Server Error";
               payload := BodyText (lit "Internal Server Error") |}.

(** The service answers 429 with a JSON error body. *)
Definition throttling (_ : Request) : FetchOutcome :=
  Responded {| status := 429; statusText := lit "Too Many Requests";
               payload := BodyText quota_body |}.

Definition habit_preview : @value engine :=
  JObj [(lit "appName", JStr (lit "HabitFlow"));
        (lit "tagline", JStr (lit "Build better days"));
        (lit "description", JStr (lit "Tracks daily habits."));
        (lit "keyFeatures", JArr [JStr (lit "streaks"); JStr (lit "reminders")]);
        (lit "targetAudience", JStr (lit "busy professionals"))].

(** A session in which a preview of the habit tracker is on screen and
    an old error is still displayed. *)
Definition session : @State engine :=
  {| simpleIdea := lit "a habit tracker";
     enhancedPrompt := JStr habit_text;
     customPrompt := JStr habit_text;
     appPreview := habit_preview;
     isLoadingEnhance := false;
     isLoadingPreview := false;
     error := lit "An old error.";
     isPromptEnhanced := true;
     appNamesSlogans := JNull;
     monetizationStrategies := JNull;
     techStackSuggestions := JNull;
     isLoadingNames := false;
     isLoadingMonetization := false;
     isLoadingTechStack := false |}.

Definition world : @World engine := mkWorld session [] [].

(** A fresh page: nothing typed, nothing generated. *)
Definition fresh : @World engine := mkWorld (@initial_state engine) [] [].

(** The application's gateway over a given network. *)
Definition gateway (net : Request -> FetchOutcome)
    : jsstring -> jsstring -> option Schema -> @M engine (@value engine) :=
  @callGeminiApi engine net.


End Demo.

(** ** The branches of the handlers, and more cases *)

Section Branches.

Context {E : Engine}.

(** The world update of a handler's success branch, on the result [r]
    the gateway returned. *)
Definition accept (op : Op) (r : value) (w : World) : World :=
  match op with
  | Enhance =>
      mkWorld (set_isPromptEnhanced true
                 (set_customPrompt r (set_enhancedPrompt r (view w))))
              (sent w) (enhancedPromptRef :: timers w)
  | Preview =>
      mkWorld (set_appPreview r (view w)) (sent w) (appPreviewRef :: timers w)
  | Names => with_view (set_appNamesSlogans r) w
  | Monetization => with_view (set_monetizationStrategies (field r "strategies")) w
  | TechStack => with_view (set_techStackSuggestions r) w
  end.

(** The three follow-on generations. *)
Definition auxiliary (op : Op) : bool :=
  match op with
  | Names | Monetization | TechStack => true
  | Enhance | Preview => false
  end.

(** What a call of the application's gateway comes to: the error message
    it leaves (empty on success) and the value it returns. *)
Definition answer (net : Request -> FetchOutcome)
    (promptText modelName : jsstring) (responseSchema : option Schema)
    : jsstring * value :=
  match settle responseSchema
              (net (api_request promptText modelName responseSchema)) with
  | Val v => ([], v)
  | Thrown err => (failure_message err, placeholder responseSchema)
  end.

(** Strings joined with a separator. *)
Fixpoint intercalate (sep : jsstring) (l : list jsstring) : jsstring :=
  match l with
  | [] => []
  | [x] => x
  | x :: r => x ++ sep ++ intercalate sep r
  end.

End Branches.

Module Cases.

Definition backslash : jsstring := [92%N].

(** A reply envelope whose first part holds [text], and the value it
    parses to; [text] is written as a JSON string literal by [quote]. *)
Definition reply (quote : jsstring) : jsstring :=
  lit "{" ++ quoted "candidates" ++ lit ":[{" ++ quoted "content" ++ lit ":{"
  ++ quoted "parts" ++ lit ":[{" ++ quoted "text" ++ lit ":"
  ++ quote ++ lit "}]}}]}".

Definition reply_value (text : jsval N) : jsval N :=
  JObj [(lit "candidates",
         JArr [JObj [(lit "content",
                      JObj [(lit "parts",
                             JArr [JObj [(lit "text", text)]])])]])].

(** The JSON text of a preview with a description only, as the service
    would send it inside the envelope, and on its own. *)
Definition preview_json : jsstring :=
  lit "{" ++ quoted "description" ++ lit ":" ++ quoted "Tracks daily habits."
  ++ lit "}".

Definition preview_json_quoted : jsstring :=
  dquote ++ lit "{" ++ backslash ++ dquote ++ lit "description" ++ backslash
  ++ dquote ++ lit ":" ++ backslash ++ dquote ++ lit "Tracks daily habits."
  ++ backslash ++ dquote ++ lit "}" ++ dquote.

Definition preview_json_value : jsval N :=
  JObj [(lit "description", JStr (lit "Tracks daily habits."))].

(** The JSON text of empty strategies. *)
Definition no_strategies_json : jsstring :=
  lit "{" ++ quoted "strategies" ++ lit ":[]}".

Definition no_strategies_json_quoted : jsstring :=
  dquote ++ lit "{" ++ backslash ++ dquote ++ lit "strategies" ++ backslash
  ++ dquote ++ lit ":[]}" ++ dquote.

(** A reply whose first part is the empty object: it has no text. *)
Definition textless_reply : jsstring :=
  lit "{" ++ quoted "candidates" ++ lit ":[{" ++ quoted "content" ++ lit ":{"
  ++ quoted "parts" ++ lit ":[{}]}}]}".

Definition textless_value : jsval N :=
  JObj [(lit "candidates",
         JArr [JObj [(lit "content",
                      JObj [(lit "parts", JArr [JObj []])])]])].

(** An engine for the cases below: as [Demo.engine], and [JSON.parse]
    also knows the texts above, [null] and the empty object. *)
Definition parse_known (text : jsstring) : jsstring + jsval N :=
  if Str.eqb text (lit "null") then inr JNull
  else if Str.eqb text (lit "{}") then inr (JObj [])
  else if Str.eqb text preview_json then inr preview_json_value
  else if Str.eqb text (reply preview_json_quoted)
       then inr (reply_value (JStr preview_json))
  else if Str.eqb text no_strategies_json
       then inr (JObj [(lit "strategies", JArr [])])
  else if Str.eqb text (reply no_strategies_json_quoted)
       then inr (reply_value (JStr no_strategies_json))
  else if Str.eqb text (reply (dquote ++ dquote))
       then inr (reply_value (JStr []))
  else if Str.eqb text textless_reply then inr textless_value
  else Demo.parse_known text.

Definition engine : Engine :=
  {| num := N;
     num_falsy := N.eqb 0;
     num_gt0 := N.ltb 0;
     num_to_string := of_N;
     str_to_num := fun _ => 0%N;
     JSON_parse := parse_known |}.

Definition gateway (net : Request -> FetchOutcome)
    : jsstring -> jsstring -> option Schema -> @M engine (@value engine) :=
  @callGeminiApi engine net.

(** A gateway that returns a given value and leaves the world alone. *)
Definition returning (r : @value engine) (_ _ : jsstring) (_ : option Schema)
    : @M engine (@value engine) :=
  ret r.

(** A gateway that throws. *)
Definition throwing (_ _ : jsstring) (_ : option Schema)
    : @M engine (@value engine) :=
  throw (JsError (lit "gateway crashed")).

Definition preview : @value engine :=
  JObj [(lit "appName", JStr (lit "HabitFlow"));
        (lit "tagline", JStr (lit "Build better days"));
        (lit "description", JStr (lit "Tracks daily habits."));
        (lit "keyFeatures", JArr [JStr (lit "streaks"); JStr (lit "reminders")]);
        (lit "targetAudience", JStr (lit "busy professionals"))].

(** A preview whose key features came back as one string. *)
Definition odd_preview : @value engine :=
  JObj [(lit "description", JStr (lit "Tracks daily habits."));
        (lit "keyFeatures", JStr (lit "streaks, reminders"))].

(** A preview without key features. *)
Definition bare_preview : @value engine :=
  JObj [(lit "description", JStr (lit "Tracks daily habits."))].

Definition names_and_slogans : @value engine :=
  JObj [(lit "names", JArr [JStr (lit "A"); JStr (lit "B")]);
        (lit "taglines", JArr [JStr (lit "T1"); JStr (lit "T2")])].

Definition strategies : @value engine :=
  JArr [JObj [(lit "name", JStr (lit "Subscription"));
              (lit "description", JStr (lit "A monthly plan."))]].

(** A session with the prompt enhanced and edited, and no preview yet. *)
Definition enhanced : @State engine :=
  {| simpleIdea := lit "a habit tracker";
     enhancedPrompt := JStr Demo.habit_text;
     customPrompt := JStr (lit "  A habit tracker for teams.  ");
     appPreview := JNull;
     isLoadingEnhance := false;
     isLoadingPreview := false;
     error := [];
     isPromptEnhanced := true;
     appNamesSlogans := JNull;
     monetizationStrategies := JNull;
     techStackSuggestions := JNull;
     isLoadingNames := false;
     isLoadingMonetization := false;
     isLoadingTechStack := false |}.

(** The same session with a preview on screen, and results of the three
    follow-on generations. *)
Definition previewed : @State engine :=
  {| simpleIdea := lit "a habit tracker";
     enhancedPrompt := JStr Demo.habit_text;
     customPrompt := JStr (lit "  A habit tracker for teams.  ");
     appPreview := preview;
     isLoadingEnhance := false;
     isLoadingPreview := false;
     error := [];
     isPromptEnhanced := true;
     appNamesSlogans := names_and_slogans;
     monetizationStrategies := strategies;
     techStackSuggestions := JObj [(lit "frontend", JStr (lit "React"))];
     isLoadingNames := false;
     isLoadingMonetization := false;
     isLoadingTechStack := false |}.

(** A session whose preview came back with its key features as one
    string. *)
Definition oddly_previewed : @State engine :=
  {| simpleIdea := lit "a habit tracker";
     enhancedPrompt := JStr Demo.habit_text;
     customPrompt := JStr Demo.habit_text;
     appPreview := odd_preview;
     isLoadingEnhance := false;
     isLoadingPreview := false;
     error := [];
     isPromptEnhanced := true;
     appNamesSlogans := JNull;
     monetizationStrategies := JNull;
     techStackSuggestions := JNull;
     isLoadingNames := false;
     isLoadingMonetization := false;
     isLoadingTechStack := false |}.

Definition world_of (s : @State engine) : @World engine := mkWorld s [] [].

(** The service answers 200 with a body that is no JSON. *)
Definition garbled (_ : Request) : FetchOutcome :=
  Responded {| status := 200; statusText := lit "OK";
               payload := BodyText (lit "<html>Bad gateway</html>") |}.

(** The service answers 200 with a given body. *)
Definition replying (text : jsstring) (_ : Request) : FetchOutcome :=
  Responded {| status := 200; statusText := lit "OK"; payload := BodyText text |}.

(** The service answers 500 with the body [{}]. *)
Definition failing_empty (_ : Request) : FetchOutcome :=
  Responded {| status := 500; statusText := lit "Internal Server Error";
               payload := BodyText (lit "{}") |}.

(** The service answers 503 with the body [null]. *)
Definition unavailable (_ : Request) : FetchOutcome :=
  Responded {| status := 503; statusText := lit "Service Unavailable";
               payload := BodyText (lit "null") |}.

End Cases.

(** ** The screen and the session *)

Section Screen.

Context {E : Engine}.

(** The conditions of the JSX: which sections are on screen and which
    buttons are enabled.  What the sections print is not modelled. *)

(** [disabled={isLoadingEnhance}] *)
Definition enhance_disabled (s : State) : bool := isLoadingEnhance s.

(** [{error && (...)}] *)
Definition shows_error (s : State) : bool :=
  match error s with
  | [] => false
  | _ => true
  end.

(** [{isPromptEnhanced && (...)}] *)
Definition shows_prompt (s : State) : bool := isPromptEnhanced s.

(** [disabled={isLoadingPreview || !customPrompt.trim()}] *)
Definition preview_disabled (s : State) : completion bool :=
  if isLoadingPreview s then Val true
  else cbind (trim_value (customPrompt s)) (fun trimmed =>
       Val (match trimmed with [] => true | _ => false end)).

(** [{appPreview && (...)}] *)
Definition shows_preview (s : State) : bool := truthy (appPreview s).

(** [{appNamesSlogans && (...)}], inside the preview section *)
Definition shows_names (s : State) : bool :=
  shows_preview s && truthy (appNamesSlogans s).

(** [{monetizationStrategies && monetizationStrategies.length > 0 && (...)}],
    inside the preview section *)
Definition shows_monetization (s : State) : completion bool :=
  if shows_preview s then
    if truthy (monetizationStrategies s)
    then length_gt0 (monetizationStrategies s)
    else Val false
  else Val false.

(** [{techStackSuggestions && (...)}], inside the preview section *)
Definition shows_tech_stack (s : State) : bool :=
  shows_preview s && truthy (techStackSuggestions s).

(** [Object.keys(v).length === 0] *)
Definition no_keys (v : value) : bool :=
  match v with
  | JObj [] | JArr [] | JStr [] => true
  | JObj _ | JArr _ | JStr _ => false
  | _ => true
  end.

(** The line "No specific tech stack suggestions at this time." *)
Definition shows_no_suggestions (s : State) : bool :=
  shows_tech_stack s && no_keys (techStackSuggestions s).

(** What the user can do, and what the network does. *)
Inductive Event : Type :=
| IdeaChanged (target_value : jsstring)
| PromptEdited (target_value : jsstring)
| Clicked (op : Op)
| Settled (n : nat) (outcome : FetchOutcome).

(** The button of an operation is on screen and enabled. *)
Definition button_enabled (op : Op) (s : State) : bool :=
  match op with
  | Enhance => negb (enhance_disabled s)
  | Preview =>
      shows_prompt s
      && match preview_disabled s with
         | Val disabled => negb disabled
         | Thrown _ => false
         end
  | Names | Monetization | TechStack => shows_preview s && negb (loading op s)
  end.

(** The gateway from where its [fetch] settled: the rest of the [try] and
    the [catch]. *)
Definition callGeminiApi_resume (responseSchema : option Schema)
    (outcome : FetchOutcome) : M value :=
  try_catch (lift (settle responseSchema outcome))
    (fun err =>
       setError (failure_message err) ;;
       ret (placeholder responseSchema)).

(** A handler from where its gateway call settled: its [try] statement
    over the resumed gateway. *)
Definition resume (op : Op) (outcome : FetchOutcome) : M unit :=
  handler_try (fun _ _ responseSchema => callGeminiApi_resume responseSchema outcome)
              op [].

(** A handler up to the [fetch] its gateway call awaits: the precondition
    check, the entry into Loading, the prompt, the clearing of the error
    and the sending of the request. *)
Definition begin (op : Op) (w : World) : World * completion (option Request) :=
  match prepare op (view w) with
  | Val None => (with_view (set_error (guidance op)) w, Val None)
  | Val (Some prompt) =>
      let request := api_request prompt default_modelName (schema_of op) in
      (mkWorld (set_error [] (enter op (view w))) (request :: sent w) (timers w),
       Val (Some request))
  | Thrown e => ((if auxiliary op then with_view (enter op) w else w), Thrown e)
  end.

(** A session: the world, and the operations whose request is in
    flight. *)
Record Session : Type := mkSession {
  now : World;
  inflight : list (Op * Request)
}.

Definition start : Session := mkSession (mkWorld initial_state [] []) [].

Fixpoint remove_nth {A} (n : nat) (l : list A) : list A :=
  match n, l with
  | _, [] => []
  | O, _ :: r => r
  | S m, x :: r => x :: remove_nth m r
  end.

(** One event.  An event the screen does not offer, or the settling of a
    request that is not in flight, does not happen. *)
Definition react (e : Event) (session : Session) : option Session :=
  let w := now session in
  match e with
  | IdeaChanged target_value =>
      Some (mkSession (fst (simpleIdea_onChange target_value w))
                      (inflight session))
  | PromptEdited target_value =>
      if shows_prompt (view w)
      then Some (mkSession (fst (customPrompt_onChange target_value w))
                           (inflight session))
      else None
  | Clicked op =>
      if button_enabled op (view w) then
        match begin op w with
        | (w', Val (Some request)) =>
            Some (mkSession w' ((op, request) :: inflight session))
        | (w', _) => Some (mkSession w' (inflight session))
        end
      else None
  | Settled n outcome =>
      match nth_error (inflight session) n with
      | Some (op, _) =>
          Some (mkSession (fst (resume op outcome w))
                          (remove_nth n (inflight session)))
      | None => None
      end
  end.

(** The sessions events can lead to. *)
Inductive reachable : Session -> Prop :=
| reachable_start : reachable start
| reachable_step (session session' : Session) (e : Event) :
    reachable session -> react e session = Some session' ->
    reachable session'.

(** The preview slot holds nothing, or an object with a description. *)
Definition preview_well_formed (s : State) : Prop :=
  appPreview s = JNull
  \/ (truthy (appPreview s) = true
      /\ truthy (field (appPreview s) "description") = true).

(** No operation has two requests in flight, and an operation with a
    request in flight has its loading flag raised. *)
Definition one_in_flight (session : Session) : Prop :=
  NoDup (map fst (inflight session))
  /\ forall op, In op (map fst (inflight session)) ->
                loading op (view (now session)) = true.

(** A run of events, and the session it ends in (the start, for a run
    that cannot happen). *)
Fixpoint run (events : list Event) (session : Session) : option Session :=
  match events with
  | [] => Some session
  | e :: rest =>
      match react e session with
      | Some session' => run rest session'
      | None => None
      end
  end.

Definition after (events : list Event) : Session :=
  match run events start with
  | Some session => session
  | None => start
  end.

(** The sessions in which no two operations overlap: each request is
    settled before the next event. *)
Inductive calm : Session -> Prop :=
| calm_start : calm start
| calm_event (session session' : Session) (e : Event) :
    calm session -> react e session = Some session' ->
    inflight session' = [] ->
    calm session'
| calm_operation (session waiting session' : Session) (op : Op)
    (outcome : FetchOutcome) :
    calm session ->
    react (Clicked op) session = Some waiting ->
    react (Settled 0 outcome) waiting = Some session' ->
    calm session'.

(** Nothing is stored downstream of what is missing: without an
    enhanced prompt there is no prompt text and no preview, and without
    a preview there is no follow-on result. *)
Definition downstream_consistent (s : State) : Prop :=
  (isPromptEnhanced s = false ->
   enhancedPrompt s = JStr [] /\ customPrompt s = JStr []
   /\ appPreview s = JNull)
  /\ (appPreview s = JNull ->
      appNamesSlogans s = JNull /\ monetizationStrategies s = JNull
      /\ techStackSuggestions s = JNull).

End Screen.

(** ** Sessions to look at *)

Module Stories.

Definition answered (text : jsstring) : FetchOutcome :=
  Responded {| status := 200; statusText := lit "OK"; payload := BodyText text |}.

(** The idea is typed and enhanced. *)
Definition typing : list Event :=
  [IdeaChanged (lit "a habit tracker")].

Definition enhancing : list Event :=
  typing ++ [Clicked Enhance].

Definition enhanced : list Event :=
  enhancing ++ [Settled 0 (answered Demo.envelope)].

(** Then a preview is generated. *)
Definition previewing : list Event :=
  enhanced ++ [Clicked Preview].

Definition previewed : list Event :=
  previewing ++ [Settled 0 (answered (Cases.reply Cases.preview_json_quoted))].

(** Then names and a tech stack are asked for, one after the other,
    and neither request has settled yet. *)
Definition busy : list Event :=
  previewed ++ [Clicked Names; Clicked TechStack].

End Stories.

(** * Properties *)

(** ** Trimming *)

Module StrFacts.

Lemma trimStart_nil (s : jsstring) : trimStart s = [] <-> blank s = true.
Proof.
  induction s as [|c r IH]; simpl.
  - split; reflexivity.
  - destruct (is_space c); simpl.
    + exact IH.
    + split; discriminate.
Qed.

Lemma trimStart_head (s : jsstring) (c : N) (r : jsstring) :
  trimStart s = c :: r -> is_space c = false.
Proof.
  induction s as [|a t IH]; simpl.
  - discriminate.
  - destruct (is_space a) eqn:Ha.
    + exact IH.
    + intros H. injection H as <- _. exact Ha.
Qed.

Lemma blank_rev (s : jsstring) : blank (List.rev s) = blank s.
Proof.
  unfold blank. induction s as [|c r IH]; simpl.
  - reflexivity.
  - rewrite forallb_app, IH. simpl. rewrite andb_true_r. apply andb_comm.
Qed.

Lemma trimEnd_nil (s : jsstring) : trimEnd s = [] <-> blank s = true.
Proof.
  unfold trimEnd. rewrite <- blank_rev, <- trimStart_nil.
  split; intros H.
  - apply (f_equal (@List.rev N)) in H. rewrite rev_involutive in H. exact H.
  - rewrite H. reflexivity.
Qed.

(** [s.trim()] is the empty string exactly when [s] is empty or holds
    only whitespace. *)
Lemma trim_nil (s : jsstring) : trim s = [] <-> blank s = true.
Proof.
  unfold trim. rewrite trimEnd_nil. split; intros H.
  - destruct (trimStart s) as [|c r] eqn:Hs.
    + apply trimStart_nil. exact Hs.
    + apply trimStart_head in Hs. simpl in H. rewrite Hs in H. discriminate.
  - apply trimStart_nil in H. rewrite H. reflexivity.
Qed.

Lemma trim_cons (s : jsstring) :
  blank s = false -> exists c r, trim s = c :: r.
Proof.
  intros H. destruct (trim s) as [|c r] eqn:Ht.
  - apply trim_nil in Ht. congruence.
  - eauto.
Qed.

Lemma prefixb_spec (p s : jsstring) :
  prefixb p s = true <-> exists t, s = p ++ t.
Proof.
  revert s. induction p as [|a p IH]; intros s; simpl.
  - split; eauto.
  - destruct s as [|b s].
    + split; [discriminate | intros [t H]; discriminate].
    + rewrite andb_true_iff, N.eqb_eq, IH. split.
      * intros [-> [t ->]]. exists t. reflexivity.
      * intros [t H]. injection H as -> ->. eauto.
Qed.

(** The executable substring test decides [embeds]. *)
Lemma embedsb_spec (needle hay : jsstring) :
  embedsb needle hay = true <-> embeds needle hay.
Proof.
  unfold embeds. induction hay as [|c h IH]; simpl.
  - rewrite orb_false_r, prefixb_spec. split.
    + intros [t H]. exists [], t. exact H.
    + intros [pre [post H]]. destruct pre; simpl in H.
      * exists post. exact H.
      * discriminate.
  - rewrite orb_true_iff, prefixb_spec, IH. split.
    + intros [[t H] | [pre [post H]]].
      * exists [], t. exact H.
      * exists (c :: pre), post. simpl. rewrite H. reflexivity.
    + intros [pre [post H]]. destruct pre as [|a pre]; simpl in H.
      * left. exists post. exact H.
      * right. injection H as -> ->. exists pre, post. reflexivity.
Qed.

End StrFacts.

(** ** How a handler runs *)

Arguments lit : simpl never.
Arguments enhancementPrompt : simpl never.
Arguments appPreviewGenerationPrompt : simpl never.
Arguments namesSlogansPrompt : simpl never.
Arguments monetizationPrompt : simpl never.
Arguments techStackPrompt : simpl never.

Section Runs.

Context {E : Engine}.
Variable gateway : jsstring -> jsstring -> option Schema -> M value.

(** A trigger whose precondition check fails only replaces the error. *)
Lemma handler_rejected (op : Op) (w : World) :
  prepare op (view w) = Val None ->
  handler gateway op w = (with_view (set_error (guidance op)) w, Val tt).
Proof.
  destruct op; unfold prepare, handler.
  - unfold handleEnhancePrompt, bind, get_view.
    destruct (trim (simpleIdea (view w))); [reflexivity | discriminate].
  - unfold handleGenerateAppPreview, bind, get_view, lift.
    destruct (trim_value (customPrompt (view w))) as [[|c r]|e];
      simpl; try discriminate. reflexivity.
  - unfold handleGenerateNamesSlogans, bind, get_view, lift.
    destruct (no_description (appPreview (view w))) as [[|]|e]; simpl;
      try discriminate; [reflexivity|].
    destruct (cbind _ to_string); discriminate.
  - unfold handleGenerateMonetizationStrategies, bind, get_view, lift.
    destruct (no_description (appPreview (view w))) as [[|]|e]; simpl;
      try discriminate; [reflexivity|].
    destruct (cbind _ to_string); discriminate.
  - unfold handleGenerateTechStack, bind, get_view, lift.
    destruct (no_description (appPreview (view w))) as [[|]|e]; simpl;
      try discriminate; [reflexivity|].
    destruct (cbind _ to_string); simpl; [|discriminate].
    destruct (cbind (get_field _ (lit "keyFeatures")) _); discriminate.
Qed.

(** A trigger that passes enters Loading and runs the [try] statement on
    the prompt built. *)
Lemma handler_entered (op : Op) (w : World) (prompt : jsstring) :
  prepare op (view w) = Val (Some prompt) ->
  handler gateway op w = handler_try gateway op prompt (with_view (enter op) w).
Proof.
  destruct op; unfold prepare, handler, handler_try.
  - unfold handleEnhancePrompt, bind, get_view.
    destruct (trim (simpleIdea (view w))); [discriminate|].
    intros H. injection H as <-. reflexivity.
  - unfold handleGenerateAppPreview, bind, get_view, lift.
    destruct (trim_value (customPrompt (view w))) as [[|c r]|e];
      simpl; try discriminate.
    intros H. injection H as <-. reflexivity.
  - unfold handleGenerateNamesSlogans, bind, get_view, lift.
    destruct (no_description (appPreview (view w))) as [[|]|e];
      simpl; try discriminate.
    destruct (cbind _ to_string); simpl; [|discriminate].
    intros H. injection H as <-. reflexivity.
  - unfold handleGenerateMonetizationStrategies, bind, get_view, lift.
    destruct (no_description (appPreview (view w))) as [[|]|e];
      simpl; try discriminate.
    destruct (cbind _ to_string); simpl; [|discriminate].
    intros H. injection H as <-. reflexivity.
  - unfold handleGenerateTechStack, bind, get_view, lift.
    destruct (no_description (appPreview (view w))) as [[|]|e];
      simpl; try discriminate.
    destruct (cbind _ to_string); simpl; [|discriminate].
    destruct (cbind (get_field _ (lit "keyFeatures")) _); simpl; [|discriminate].
    intros H. injection H as <-. reflexivity.
Qed.

Lemma absent_falsy (v : value) : absent v = true -> truthy v = false.
Proof. destruct v; simpl; congruence. Qed.

(** The precondition of the specification fails: so does the check of
    the code. *)
Lemma precondition_fails_prepare (op : Op) (s : State) :
  precondition_fails op s = true -> prepare op s = Val None.
Proof.
  destruct op; unfold precondition_fails, prepare; intros H.
  - apply StrFacts.trim_nil in H. rewrite H. reflexivity.
  - destruct (customPrompt s); try discriminate.
    apply StrFacts.trim_nil in H. simpl. rewrite H. reflexivity.
  - unfold no_description, field in *.
    destruct (appPreview s) as [| |b|n|t|l|props]; simpl in *; try discriminate;
      try reflexivity; try (destruct b; reflexivity);
      try (destruct (num_falsy n); reflexivity);
      try (destruct t; reflexivity).
    destruct (lookup (lit "description") props) as [d|]; simpl;
      [rewrite (absent_falsy _ H)|]; reflexivity.
  - unfold no_description, field in *.
    destruct (appPreview s) as [| |b|n|t|l|props]; simpl in *; try discriminate;
      try reflexivity; try (destruct b; reflexivity);
      try (destruct (num_falsy n); reflexivity);
      try (destruct t; reflexivity).
    destruct (lookup (lit "description") props) as [d|]; simpl;
      [rewrite (absent_falsy _ H)|]; reflexivity.
  - unfold no_description, field in *.
    destruct (appPreview s) as [| |b|n|t|l|props]; simpl in *; try discriminate;
      try reflexivity; try (destruct b; reflexivity);
      try (destruct (num_falsy n); reflexivity);
      try (destruct t; reflexivity).
    destruct (lookup (lit "description") props) as [d|]; simpl;
      [rewrite (absent_falsy _ H)|]; reflexivity.
Qed.

End Runs.

(** ** The gateway *)

Section GatewayFacts.

Context {E : Engine}.
Variable net : Request -> FetchOutcome.

(** The [try] of the gateway sends exactly one request and completes as
    [settle] says. *)
Lemma callGeminiApi_try_settle (request : Request) (responseSchema : option Schema)
    (w : World) :
  callGeminiApi_try net request responseSchema w
  = (mkWorld (view w) (request :: sent w) (timers w),
     settle responseSchema (net request)).
Proof.
  unfold callGeminiApi_try, settle, bind at 1, fetch.
  destruct (net request) as [e|r]; [reflexivity|].
  unfold bind, lift, throw, ret, try_catch.
  destruct (ok r); simpl.
  - destruct (response_text r) as [[|c t]|e]; simpl; try reflexivity.
    destruct (parse (c :: t)) as [result|e]; simpl; [|reflexivity].
    destruct (has_content result) as [[|]|e]; simpl; try reflexivity.
    destruct (first_text result) as [textResult|e]; simpl; [|reflexivity].
    destruct responseSchema; [|reflexivity].
    destruct (cbind (to_string textResult) parse); reflexivity.
  - destruct (response_json r) as [errorData|e]; simpl; [|reflexivity].
    destruct (error_detail errorData r); reflexivity.
Qed.

(** The gateway, start to end: the error is cleared, one request is
    sent, and a throw of the [try] becomes the error message and the
    placeholder. *)
Lemma callGeminiApi_run (promptText modelName : jsstring)
    (responseSchema : option Schema) (w : World) :
  callGeminiApi net promptText modelName responseSchema w
  = let request := api_request promptText modelName responseSchema in
    match settle responseSchema (net request) with
    | Val v =>
        (mkWorld (set_error [] (view w)) (request :: sent w) (timers w), Val v)
    | Thrown err =>
        (mkWorld (set_error (failure_message err) (view w))
                 (request :: sent w) (timers w),
         Val (placeholder responseSchema))
    end.
Proof.
  unfold callGeminiApi, clearError, setError, modify, bind at 1.
  unfold try_catch. rewrite callGeminiApi_try_settle. simpl.
  destruct (settle _ _); reflexivity.
Qed.

(** Each of the five failures makes the [try] throw. *)
Lemma Failure_settle (responseSchema : option Schema) (outcome : FetchOutcome) :
  Failure responseSchema outcome ->
  exists err, settle responseSchema outcome = Thrown err.
Proof.
  intros F. destruct F as
    [r Hok | r Hok Hb | r text complaint Hok Hb Hne Hp
    | r text result Hok Hb Hne Hp Hc
    | r text result textResult schema e Hok Hb Hne Hp Hc Ht Hs Hi];
    unfold settle; rewrite Hok; simpl.
  - unfold response_json, response_text.
    destruct (payload r) as [t|e]; simpl; [|eauto].
    destruct (parse t) as [errorData|e]; simpl; [|eauto].
    destruct (error_detail errorData r); simpl; eauto.
  - unfold response_text. rewrite Hb. simpl. eauto.
  - unfold response_text. rewrite Hb. simpl.
    destruct text as [|c t]; [congruence|]. simpl.
    unfold parse. rewrite Hp. simpl. eauto.
  - unfold response_text. rewrite Hb. simpl.
    destruct text as [|c t]; [congruence|]. simpl.
    unfold parse. rewrite Hp. simpl.
    destruct (has_content result) as [[|]|e]; simpl; [congruence| |]; eauto.
  - unfold response_text. rewrite Hb. simpl.
    destruct text as [|c t]; [congruence|]. simpl.
    unfold parse at 1. rewrite Hp. simpl. rewrite Hc. simpl.
    rewrite Ht. simpl. rewrite Hs, Hi. eauto.
Qed.

End GatewayFacts.

(** ** The handlers *)

(** Opens the [try] statement of whichever handler is at hand. *)
Ltac open_try :=
  unfold handler_try,
    handleEnhancePrompt_try, handleGenerateAppPreview_try,
    handleGenerateNamesSlogans_try, handleGenerateMonetizationStrategies_try,
    handleGenerateTechStack_try.

(** Turns the setters into the view updates they stand for. *)
Ltac open_setters :=
  unfold setSimpleIdea, setEnhancedPrompt, setCustomPrompt, setAppPreview,
    setIsLoadingEnhance, setIsLoadingPreview, setError, setIsPromptEnhanced,
    setAppNamesSlogans, setMonetizationStrategies, setTechStackSuggestions,
    setIsLoadingNames, setIsLoadingMonetization, setIsLoadingTechStack.

Section HandlerFacts.

Context {E : Engine}.

(** Whatever the body does, a [finally] that only updates the view has
    the last word on the view. *)
Lemma try_finally_modify {A} (body : M A) (f : State -> State) (w : World) :
  try_finally body (modify f) w
  = (with_view f (fst (body w)), snd (body w)).
Proof.
  unfold try_finally, modify, with_view.
  destruct (body w) as [w' r]. reflexivity.
Qed.


Lemma truthy_get_field (r : value) (k : string) :
  truthy r = true -> get_field r (lit k) = Val (field r k).
Proof. unfold field. destruct r; simpl; try discriminate; reflexivity. Qed.

(** [r && r.k] *)
Lemma guarded_field (r : value) (k : string) :
  exists d,
    (if truthy r then get_field r (lit k) else Val r) = Val d
    /\ truthy d = truthy r && truthy (field r k).
Proof.
  destruct (truthy r) eqn:Hr.
  - rewrite (truthy_get_field _ k Hr). eauto.
  - exists r. rewrite Hr. auto.
Qed.

(** When the gateway hands back a result the handler cannot use, the
    [try] statement takes the failure branch and lowers the flag. *)
Lemma handler_try_unusable
    (gateway : jsstring -> jsstring -> option Schema -> M value)
    (op : Op) (prompt : jsstring) (w w1 : World) (r : value) :
  gateway prompt default_modelName (schema_of op) w = (w1, Val r) ->
  usable op r = false ->
  handler_try gateway op prompt w
  = (with_view (fun s => lowers op (reject op s)) w1, Val tt).
Proof.
  intros Hg Hu.
  destruct op; open_try;
    unfold setIsLoadingEnhance, setIsLoadingPreview, setIsLoadingNames,
      setIsLoadingMonetization, setIsLoadingTechStack;
    rewrite try_finally_modify; unfold try_catch, bind, lift;
    unfold default_modelName, schema_of in *; rewrite Hg;
    unfold usable in Hu.
  - rewrite Hu. reflexivity.
  - destruct (guarded_field r "description") as [d [-> Hd]].
    rewrite Hd, Hu. reflexivity.
  - destruct (guarded_field r "names") as [names [-> Hn]].
    destruct (truthy names) eqn:Hnames.
    + symmetry in Hn. apply andb_true_iff in Hn. destruct Hn as [Hr Hf].
      rewrite (truthy_get_field _ "taglines" Hr).
      rewrite Hr, Hf in Hu. simpl in Hu. rewrite Hu. reflexivity.
    + rewrite Hnames. reflexivity.
  - destruct (guarded_field r "strategies") as [d [-> Hd]].
    rewrite Hd, Hu. reflexivity.
  - rewrite Hu. reflexivity.
Qed.

(** When building the prompt throws, so does the handler. *)
Lemma handler_threw
    (gateway : jsstring -> jsstring -> option Schema -> M value)
    (op : Op) (w : World) (e : exn) :
  prepare op (view w) = Thrown e ->
  snd (handler gateway op w) = Thrown e.
Proof.
  destruct op; unfold prepare, handler.
  - destruct (trim (simpleIdea (view w))); discriminate.
  - unfold handleGenerateAppPreview, bind, get_view, lift.
    destruct (trim_value (customPrompt (view w))) as [[|c r]|e'];
      simpl; try discriminate.
    intros H; injection H as ->; reflexivity.
  - unfold handleGenerateNamesSlogans, bind, get_view, lift.
    destruct (no_description (appPreview (view w))) as [[|]|e']; simpl;
      try discriminate; [|intros H; injection H as ->; reflexivity].
    destruct (cbind _ to_string); simpl; [discriminate|]. intros H; injection H as ->; reflexivity.
  - unfold handleGenerateMonetizationStrategies, bind, get_view, lift.
    destruct (no_description (appPreview (view w))) as [[|]|e']; simpl;
      try discriminate; [|intros H; injection H as ->; reflexivity].
    destruct (cbind _ to_string); simpl; [discriminate|]. intros H; injection H as ->; reflexivity.
  - unfold handleGenerateTechStack, bind, get_view, lift.
    destruct (no_description (appPreview (view w))) as [[|]|e']; simpl;
      try discriminate; [|intros H; injection H as ->; reflexivity].
    destruct (cbind _ to_string); simpl; [|intros H; injection H as ->; reflexivity].
    destruct (cbind (get_field _ (lit "keyFeatures")) _); simpl;
      [discriminate|]. intros H; injection H as ->; reflexivity.
Qed.



End HandlerFacts.

(** ** Frames *)

Section Frames.

Context {E : Engine}.
Variable P : State -> Prop.

Lemma preserves_ret {A} (a : A) : preserves P (ret a).
Proof. intros w H. exact H. Qed.

Lemma preserves_throw {A} (e : exn) : preserves P (@throw _ A e).
Proof. intros w H. exact H. Qed.

Lemma preserves_lift {A} (c : completion A) : preserves P (lift c).
Proof. intros w H. exact H. Qed.

Lemma preserves_get_view : preserves P get_view.
Proof. intros w H. exact H. Qed.

Lemma preserves_timeout (r : Ref) : preserves P (setTimeout_scrollToRef r).
Proof. intros w H. exact H. Qed.

Lemma preserves_modify (f : State -> State) :
  (forall s, P s -> P (f s)) -> preserves P (modify f).
Proof. intros Hf w H. apply Hf. exact H. Qed.

Lemma preserves_bind {A B} (c : M A) (k : A -> M B) :
  preserves P c -> (forall a, preserves P (k a)) -> preserves P (bind c k).
Proof.
  intros Hc Hk w H. unfold bind. specialize (Hc w H).
  destruct (c w) as [w' [a|e]]; simpl in *.
  - apply Hk. exact Hc.
  - exact Hc.
Qed.

Lemma preserves_try_catch {A} (body : M A) (handler : exn -> M A) :
  preserves P body -> (forall e, preserves P (handler e)) ->
  preserves P (try_catch body handler).
Proof.
  intros Hb Hh w H. unfold try_catch. specialize (Hb w H).
  destruct (body w) as [w' [a|e]]; simpl in *.
  - exact Hb.
  - apply Hh. exact Hb.
Qed.

Lemma preserves_try_finally {A} (body : M A) (final : M unit) :
  preserves P body -> preserves P final ->
  preserves P (try_finally body final).
Proof.
  intros Hb Hf w H. unfold try_finally. specialize (Hb w H).
  destruct (body w) as [w' r]; simpl in *. specialize (Hf w' Hb).
  destruct (final w') as [w'' [u|e]]; exact Hf.
Qed.

(** The application's gateway keeps every property of the view that
    does not look at the error. *)
Lemma preserves_callGeminiApi (net : Request -> FetchOutcome)
    (promptText modelName : jsstring) (responseSchema : option Schema) :
  (forall e s, P s -> P (set_error e s)) ->
  preserves P (callGeminiApi net promptText modelName responseSchema).
Proof.
  intros HP w H. rewrite callGeminiApi_run. cbv zeta.
  destruct (settle _ _); simpl; apply HP; exact H.
Qed.

End Frames.


(** ** The claims *)

Section Claims.

Context {E : Engine}.

(** Claim C1.  For every prompt, model name and optional schema, and
    whatever the network does, [callGeminiApi] completes with a value: it
    never throws.  On each of the five failures (non-success status,
    empty body, unparseable envelope, missing candidate/content path,
    unparseable inner JSON) it leaves as error message the sentence
    "Failed to connect to AI: <cause>. Please try again." and returns the
    empty string when no schema was supplied, the empty object when one
    was. *)
Theorem callGeminiApi_never_throws
    (net : Request -> FetchOutcome) (promptText modelName : jsstring)
    (responseSchema : option Schema) (w : World) :
  (exists w' v,
      callGeminiApi net promptText modelName responseSchema w = (w', Val v))
  /\ (Failure responseSchema
        (net (api_request promptText modelName responseSchema)) ->
      exists cause w',
        callGeminiApi net promptText modelName responseSchema w
        = (w', Val (match responseSchema with
                    | None => JStr []
                    | Some _ => JObj []
                    end))
        /\ error (view w')
           = lit "Failed to connect to AI: " ++ cause
             ++ lit ". Please try again.").
Proof.
  rewrite callGeminiApi_run. cbv zeta. split.
  - destruct (settle _ _); eauto.
  - intros F. apply Failure_settle in F. destruct F as [err ->].
    exists (message err). eexists. split.
    + unfold placeholder, empty_object, empty_string.
      destruct responseSchema; reflexivity.
    + reflexivity.
Qed.

(** Claim C2.  A trigger of any of the five operations whose
    precondition fails (idea, or editable prompt, empty or only
    whitespace; preview or its description absent) returns with the view
    changed in its error only, which becomes the operation's guidance
    string: no request is sent, whatever the gateway, and no loading
    flag is touched. *)
Theorem precondition_failure_short_circuits
    (gateway : jsstring -> jsstring -> option Schema -> M value)
    (op : Op) (w : World) :
  precondition_fails op (view w) = true ->
  handler gateway op w = (with_view (set_error (guidance op)) w, Val tt)
  /\ sent (fst (handler gateway op w)) = sent w
  /\ error (view (fst (handler gateway op w))) = guidance op
  /\ guidance op <> []
  /\ forall op', loading op' (view (fst (handler gateway op w)))
                 = loading op' (view w).
Proof.
  intros H. apply precondition_fails_prepare in H.
  rewrite (handler_rejected gateway op w H).
  repeat split. destruct op; discriminate.
Qed.

(** Claim C4.  After the idea's change handler ran, from any state, the
    enhanced prompt, the editable prompt and the error are the empty
    string, [isPromptEnhanced] is false, and the preview, the names and
    slogans, the monetization strategies and the tech stack suggestion
    are absent. *)
Theorem idea_change_clears_downstream
    (target_value : jsstring) (w : World) :
  let w' := fst (simpleIdea_onChange target_value w) in
  snd (simpleIdea_onChange target_value w) = Val tt
  /\ simpleIdea (view w') = target_value
  /\ enhancedPrompt (view w') = JStr []
  /\ customPrompt (view w') = JStr []
  /\ error (view w') = []
  /\ isPromptEnhanced (view w') = false
  /\ appPreview (view w') = JNull
  /\ appNamesSlogans (view w') = JNull
  /\ monetizationStrategies (view w') = JNull
  /\ techStackSuggestions (view w') = JNull.
Proof. repeat split. Qed.


(** Claim C5.  When the enhancement's gateway call returns a non-empty
    text, then right after the handler is done the enhanced prompt and
    the editable prompt both hold that text and [isPromptEnhanced] is
    true. *)
Theorem enhancement_seeds_editable_prompt
    (gateway : jsstring -> jsstring -> option Schema -> M value)
    (w w1 : World) (text : jsstring) :
  blank (simpleIdea (view w)) = false ->
  text <> [] ->
  gateway (enhancementPrompt (simpleIdea (view w))) default_modelName None
          (with_view (enter Enhance) w)
  = (w1, Val (JStr text)) ->
  let w' := fst (handler gateway Enhance w) in
  enhancedPrompt (view w') = JStr text
  /\ customPrompt (view w') = JStr text
  /\ isPromptEnhanced (view w') = true.
Proof.
  intros Hidea Htext Hg.
  assert (Hp : prepare Enhance (view w)
               = Val (Some (enhancementPrompt (simpleIdea (view w))))).
  { unfold prepare. destruct (StrFacts.trim_cons _ Hidea) as [c [r ->]].
    reflexivity. }
  rewrite (handler_entered gateway Enhance w Hp).
  unfold handler_try, handleEnhancePrompt_try, setIsLoadingEnhance.
  rewrite try_finally_modify. unfold bind. rewrite Hg.
  destruct text as [|c t]; [congruence|].
  repeat split.
Qed.

(** Claim C6.  When the preview's gateway call returns a result without
    a non-empty description (the empty object of a failed gateway call
    is one), the preview is absent after the handler is done and the
    error message is the handler's, a non-empty string. *)
Theorem preview_without_description_stays_absent
    (gateway : jsstring -> jsstring -> option Schema -> M value)
    (w w1 : World) (prompt : jsstring) (r : value) :
  prepare Preview (view w) = Val (Some prompt) ->
  gateway prompt default_modelName (Some appPreviewSchema)
          (with_view (enter Preview) w)
  = (w1, Val r) ->
  truthy (field r "description") = false ->
  let w' := fst (handler gateway Preview w) in
  appPreview (view w') = JNull
  /\ error (view w')
     = lit "Failed to generate a structured app preview. The AI might not have returned complete data or valid JSON."
  /\ error (view w') <> [].
Proof.
  intros Hp Hg Hd.
  rewrite (handler_entered gateway Preview w Hp).
  rewrite (@handler_try_unusable _ gateway Preview prompt _ w1 r Hg).
  - repeat split. discriminate.
  - unfold usable. rewrite Hd. apply andb_false_r.
Qed.



(** Claim C8, at the inputs where the code departs from it.  When the
    service answers a non-success status with a body that [JSON.parse]
    refuses, the error message is built from the parser's complaint
    alone: the status code is not in the sentence the gateway
    composes. *)
Theorem status_lost_when_error_body_unparseable
    (net : Request -> FetchOutcome) (promptText modelName : jsstring)
    (responseSchema : option Schema) (w : World)
    (r : Response) (text complaint : jsstring) :
  net (api_request promptText modelName responseSchema) = Responded r ->
  ok r = false ->
  payload r = BodyText text ->
  JSON_parse text = inl complaint ->
  error (view (fst (callGeminiApi net promptText modelName responseSchema w)))
  = lit "Failed to connect to AI: " ++ complaint ++ lit ". Please try again.".
Proof.
  intros Hn Hok Hb Hp. rewrite callGeminiApi_run. cbv zeta.
  rewrite Hn. unfold settle. rewrite Hok. simpl.
  unfold response_json, response_text. rewrite Hb. simpl.
  unfold parse. rewrite Hp. reflexivity.
Qed.

(** The other side of the same branch: when the error body parses and
    its detail prints, the message carries the status code and the
    detail (the server's reason, or the status text). *)
Lemma status_embedded_when_error_body_parses
    (net : Request -> FetchOutcome) (promptText modelName : jsstring)
    (responseSchema : option Schema) (w : World)
    (r : Response) (text detail : jsstring) (errorData : value) :
  net (api_request promptText modelName responseSchema) = Responded r ->
  ok r = false ->
  payload r = BodyText text ->
  JSON_parse text = inr errorData ->
  error_detail errorData r = Val detail ->
  let message :=
    error (view (fst (callGeminiApi net promptText modelName responseSchema w))) in
  message
  = lit "Failed to connect to AI: "
    ++ (lit "API error: " ++ of_N (status r) ++ lit " - " ++ detail)
    ++ lit ". Please try again."
  /\ embeds (of_N (status r)) message
  /\ embeds detail message.
Proof.
  intros Hn Hok Hb Hp Hd. rewrite callGeminiApi_run. cbv zeta.
  rewrite Hn. unfold settle. rewrite Hok. cbn.
  unfold response_json, response_text. rewrite Hb. cbn.
  unfold parse. rewrite Hp. cbn. rewrite Hd. cbn.
  unfold failure_message, message. split; [reflexivity|split].
  - exists (lit "Failed to connect to AI: " ++ lit "API error: "),
           (lit " - " ++ detail ++ lit ". Please try again.").
    rewrite <- !app_assoc. reflexivity.
  - exists (lit "Failed to connect to AI: " ++ lit "API error: "
            ++ of_N (status r) ++ lit " - "),
           (lit ". Please try again.").
    rewrite <- !app_assoc. reflexivity.
Qed.

(** No handler lowers [isPromptEnhanced]. *)
Lemma handler_keeps_isPromptEnhanced (net : Request -> FetchOutcome) (op : Op) :
  preserves (fun s => isPromptEnhanced s = true) (handler (callGeminiApi net) op).
Proof.
  destruct op; unfold handler,
    handleEnhancePrompt, handleGenerateAppPreview, handleGenerateNamesSlogans,
    handleGenerateMonetizationStrategies, handleGenerateTechStack;
    open_try; open_setters.
  (* Walk each handler statement by statement; every view update keeps
     the flag by computation. *)
  all: repeat first
    [ apply preserves_bind; [|intros ?]
    | apply preserves_try_finally
    | apply preserves_try_catch; [|intros ?]
    | apply preserves_ret
    | apply preserves_lift
    | apply preserves_get_view
    | apply preserves_timeout
    | apply preserves_callGeminiApi; intros ? ? ?; assumption
    | apply preserves_modify; intros ? ?; first [assumption | reflexivity]
    | match goal with
      | |- preserves _ (match ?x with _ => _ end) => destruct x
      end ].
Qed.

(** Claim C10.  If [isPromptEnhanced] is true and an enhancement is
    triggered whose gateway call returns the empty string, then after
    the handler is done [isPromptEnhanced] is still true while the
    enhanced and the editable prompt are the empty string.  No handler
    of the five operations, and no edit of the prompt, lowers
    [isPromptEnhanced]; a change of the idea does. *)
Theorem failed_enhancement_keeps_isPromptEnhanced
    (net : Request -> FetchOutcome) (w w1 : World) :
  isPromptEnhanced (view w) = true ->
  blank (simpleIdea (view w)) = false ->
  callGeminiApi net (enhancementPrompt (simpleIdea (view w)))
                default_modelName None (with_view (enter Enhance) w)
  = (w1, Val (JStr [])) ->
  (let w' := fst (handler (callGeminiApi net) Enhance w) in
   isPromptEnhanced (view w') = true
   /\ enhancedPrompt (view w') = JStr []
   /\ customPrompt (view w') = JStr [])
  /\ (forall op w0,
         isPromptEnhanced (view w0) = true ->
         isPromptEnhanced (view (fst (handler (callGeminiApi net) op w0))) = true)
  /\ (forall target_value w0,
         isPromptEnhanced (view w0) = true ->
         isPromptEnhanced (view (fst (customPrompt_onChange target_value w0)))
         = true)
  /\ (forall target_value w0,
         isPromptEnhanced (view (fst (simpleIdea_onChange target_value w0)))
         = false).
Proof.
  intros Hflag Hidea Hg. split; [|split; [|split]].
  - assert (Hp : prepare Enhance (view w)
                 = Val (Some (enhancementPrompt (simpleIdea (view w))))).
    { unfold prepare. destruct (StrFacts.trim_cons _ Hidea) as [c [r ->]].
      reflexivity. }
    rewrite (handler_entered (callGeminiApi net) Enhance w Hp).
    rewrite (@handler_try_unusable _ (callGeminiApi net) Enhance _ _ w1
               (JStr []) Hg eq_refl).
    rewrite callGeminiApi_run in Hg. cbv zeta in Hg.
    destruct (settle _ _); apply (f_equal fst) in Hg; simpl in Hg;
      subst w1; repeat split; exact Hflag.
  - intros op w0. apply (handler_keeps_isPromptEnhanced net op).
  - intros target_value w0 H. exact H.
  - reflexivity.
Qed.

End Claims.

(** ** The claims at work *)

Section Examples.

(** An empty body is a failure: the gateway reports it and returns the
    empty string. *)
Lemma callGeminiApi_never_throws_witness :
  exists cause w',
    Demo.gateway Demo.silent (lit "a habit tracker") default_modelName None Demo.world
    = (w', Val (JStr []))
    /\ error (view w')
       = lit "Failed to connect to AI: " ++ cause ++ lit ". Please try again.".
Proof.
  apply (proj2 (@callGeminiApi_never_throws Demo.engine Demo.silent
                  (lit "a habit tracker") default_modelName None Demo.world)).
  apply empty_body; reflexivity.
Defined.

(** Names and slogans asked for on a fresh page: nothing is sent. *)
Lemma precondition_failure_short_circuits_witness :
  sent (fst (handler (Demo.gateway Demo.answering) Names Demo.fresh)) = []
  /\ error (view (fst (handler (Demo.gateway Demo.answering) Names Demo.fresh)))
     = lit "Please generate an app preview first.".
Proof.
  destruct (@precondition_failure_short_circuits Demo.engine
              (Demo.gateway Demo.answering) Names Demo.fresh eq_refl)
    as [_ [Hsent [Herror _]]].
  split; [exact Hsent | exact Herror].
Defined.

(** The service answers the enhancement with the habit tracker's text. *)
Lemma enhancement_seeds_editable_prompt_witness :
  enhancedPrompt (view (fst (handler (Demo.gateway Demo.answering) Enhance Demo.world)))
  = JStr Demo.habit_text
  /\ customPrompt (view (fst (handler (Demo.gateway Demo.answering) Enhance Demo.world)))
     = JStr Demo.habit_text
  /\ isPromptEnhanced (view (fst (handler (Demo.gateway Demo.answering) Enhance Demo.world)))
     = true.
Proof.
  apply (@enhancement_seeds_editable_prompt Demo.engine
           (Demo.gateway Demo.answering) Demo.world
           (fst (Demo.gateway Demo.answering
                   (enhancementPrompt (simpleIdea (view Demo.world)))
                   default_modelName None
                   (with_view (enter Enhance) Demo.world)))
           Demo.habit_text).
  - reflexivity.
  - discriminate.
  - vm_compute. reflexivity.
Defined.

(** The network is down while a preview is asked for. *)
Lemma preview_without_description_stays_absent_witness :
  appPreview (view (fst (handler (Demo.gateway Demo.offline) Preview Demo.world)))
  = JNull.
Proof.
  refine (proj1 (@preview_without_description_stays_absent Demo.engine
                   (Demo.gateway Demo.offline) Demo.world
                   (fst (Demo.gateway Demo.offline
                           (appPreviewGenerationPrompt Demo.habit_text)
                           default_modelName (Some appPreviewSchema)
                           (with_view (enter Preview) Demo.world)))
                   (appPreviewGenerationPrompt Demo.habit_text)
                   (JObj []) _ _ _)).
  - vm_compute. reflexivity.
  - vm_compute. reflexivity.
  - reflexivity.
Defined.




(** Status 500 with a plain-text error page: the message is the parser's
    complaint, and 500 is nowhere in it. *)
Lemma status_lost_when_error_body_unparseable_witness :
  error (view (fst (Demo.gateway (Demo.failing 500) (lit "a habit tracker")
                            default_modelName None Demo.world)))
  = lit "Failed to connect to AI: "
    ++ lit "Unexpected token I in JSON at position 0"
    ++ lit ". Please try again."
  /\ ~ embeds (of_N 500)
         (error (view (fst (Demo.gateway (Demo.failing 500) (lit "a habit tracker")
                                         default_modelName None Demo.world)))).
Proof.
  split.
  - apply (@status_lost_when_error_body_unparseable Demo.engine
             (Demo.failing 500) (lit "a habit tracker") default_modelName None
             Demo.world
             {| status := 500; statusText := lit "Internal Server Error";
                payload := BodyText (lit "Internal Server Error") |}
             (lit "Internal Server Error")
             (lit "Unexpected token I in JSON at position 0"));
      reflexivity.
  - intros H. apply StrFacts.embedsb_spec in H. vm_compute in H. discriminate.
Defined.


(** The network is down while an enhanced idea is enhanced again. *)
Lemma failed_enhancement_keeps_isPromptEnhanced_witness :
  isPromptEnhanced (view (fst (handler (Demo.gateway Demo.offline) Enhance Demo.world)))
  = true
  /\ enhancedPrompt (view (fst (handler (Demo.gateway Demo.offline) Enhance Demo.world)))
     = JStr []
  /\ customPrompt (view (fst (handler (Demo.gateway Demo.offline) Enhance Demo.world)))
     = JStr [].
Proof.
  refine (proj1 (@failed_enhancement_keeps_isPromptEnhanced Demo.engine
                   Demo.offline Demo.world
                   (fst (Demo.gateway Demo.offline
                           (enhancementPrompt (simpleIdea (view Demo.world)))
                           default_modelName None
                           (with_view (enter Enhance) Demo.world)))
                   _ _ _)).
  - reflexivity.
  - reflexivity.
  - vm_compute. reflexivity.
Defined.

End Examples.

(** * Beyond the claims *)

(** ** The gateway, case by case *)

Section GatewayCases.

Context {E : Engine}.
Variable net : Request -> FetchOutcome.

(** What the gateway's [try] makes of a response with a success status
    and a body that parses. *)
Lemma settle_parsed (responseSchema : option Schema) (r : Response)
    (text : jsstring) (result : value) :
  ok r = true -> payload r = BodyText text -> text <> [] ->
  JSON_parse text = inr result ->
  settle responseSchema (Responded r)
  = cbind (has_content result) (fun usable =>
    if usable then
      cbind (first_text result) (fun textResult =>
      match responseSchema with
      | Some _ =>
          match cbind (to_string textResult) parse with
          | Val v => Val v
          | Thrown _ =>
              Thrown (JsError (lit "AI returned invalid JSON within its content. Please try again."))
          end
      | None => Val textResult
      end)
    else
      Thrown (JsError (lit "Unexpected API response structure or no content generated."))).
Proof.
  intros Hok Hb Hne Hp. unfold settle. rewrite Hok. cbn.
  unfold response_text. rewrite Hb. cbn.
  destruct text as [|c t]; [congruence|]. cbn.
  unfold parse at 1. rewrite Hp. reflexivity.
Qed.

(** Every call of the gateway sends exactly one request, whatever comes
    back: no retry, no second attempt.  The request carries the prompt
    as its single user turn and a generation configuration exactly when a
    schema was supplied.  Of the view, the call changes the error only,
    and it schedules nothing. *)
Theorem callGeminiApi_sends_one_request
    (promptText modelName : jsstring) (responseSchema : option Schema)
    (w : World) :
  let request := api_request promptText modelName responseSchema in
  let w' := fst (callGeminiApi net promptText modelName responseSchema w) in
  sent w' = request :: sent w
  /\ timers w' = timers w
  /\ (exists e, view w' = set_error e (view w))
  /\ contents (body request) = promptText
  /\ generationConfig (body request)
     = match responseSchema with
       | Some schema =>
           Some {| responseMimeType := lit "application/json";
                   responseSchema := schema |}
       | None => None
       end.
Proof.
  cbv zeta. rewrite callGeminiApi_run. cbv zeta.
  destruct (settle _ _); cbn; repeat split; eauto.
Qed.

(** On a reply with a success status whose envelope parses and holds the
    candidate/content path, the gateway ends with the error empty and
    returns the text of the first part: as it is when no schema was
    supplied, parsed when one was and the text parses. *)
Theorem callGeminiApi_returns_first_part
    (promptText modelName : jsstring) (responseSchema : option Schema)
    (w : World) (r : Response) (text : jsstring) (result textResult : value) :
  net (api_request promptText modelName responseSchema) = Responded r ->
  ok r = true -> payload r = BodyText text -> text <> [] ->
  JSON_parse text = inr result ->
  has_content result = Val true ->
  first_text result = Val textResult ->
  let run := callGeminiApi net promptText modelName responseSchema w in
  (responseSchema = None ->
   snd run = Val textResult /\ error (view (fst run)) = [])
  /\ (forall schema v,
         responseSchema = Some schema ->
         cbind (to_string textResult) parse = Val v ->
         snd run = Val v /\ error (view (fst run)) = []).
Proof.
  intros Hn Hok Hb Hne Hp Hc Ht run. subst run.
  rewrite callGeminiApi_run. cbv zeta. rewrite Hn.
  rewrite (settle_parsed responseSchema r Hok Hb Hne Hp), Hc. cbn.
  rewrite Ht. cbn. split.
  - intros ->. split; reflexivity.
  - intros schema v -> Hv. rewrite Hv. split; reflexivity.
Qed.

(** A reply whose first part has no [text]: with no schema the gateway
    returns [undefined] and reports nothing. *)
Theorem callGeminiApi_part_without_text
    (promptText modelName : jsstring) (w : World) (r : Response)
    (text : jsstring) (result part : value) :
  net (api_request promptText modelName None) = Responded r ->
  ok r = true -> payload r = BodyText text -> text <> [] ->
  JSON_parse text = inr result ->
  has_content result = Val true ->
  cbind (get_field result (lit "candidates")) (fun candidates =>
  cbind (get_first candidates) (fun candidate =>
  cbind (get_field candidate (lit "content")) (fun content =>
  cbind (get_field content (lit "parts")) get_first))) = Val part ->
  truthy part = true ->
  field part "text" = JUndef ->
  let run := callGeminiApi net promptText modelName None w in
  snd run = Val JUndef /\ error (view (fst run)) = [].
Proof.
  intros Hn Hok Hb Hne Hp Hc Hpart Htruthy Htext run. subst run.
  assert (Ht : first_text result = Val JUndef).
  { unfold first_text.
    destruct (get_field result (lit "candidates")) as [candidates|]; [|discriminate].
    cbn in *.
    destruct (get_first candidates) as [candidate|]; [|discriminate]. cbn in *.
    destruct (get_field candidate (lit "content")) as [content|]; [|discriminate].
    cbn in *.
    destruct (get_field content (lit "parts")) as [parts|]; [|discriminate].
    cbn in *. rewrite Hpart. cbn.
    rewrite (truthy_get_field _ "text" Htruthy). rewrite Htext. reflexivity. }
  rewrite callGeminiApi_run. cbv zeta. rewrite Hn.
  rewrite (settle_parsed None r Hok Hb Hne Hp), Hc. cbn.
  rewrite Ht. split; reflexivity.
Qed.

(** A body that is no JSON, under a success status: the error message
    quotes at most the first 100 code units of the body, followed by the
    parser's complaint, and the gateway returns its placeholder. *)
Theorem callGeminiApi_quotes_unparseable_body
    (promptText modelName : jsstring) (responseSchema : option Schema)
    (w : World) (r : Response) (text complaint : jsstring) :
  net (api_request promptText modelName responseSchema) = Responded r ->
  ok r = true -> payload r = BodyText text -> text <> [] ->
  JSON_parse text = inl complaint ->
  let run := callGeminiApi net promptText modelName responseSchema w in
  snd run = Val (placeholder responseSchema)
  /\ error (view (fst run))
     = lit "Failed to connect to AI: "
       ++ (lit "AI returned invalid response format: "
           ++ substring0 100 text ++ lit "... (Error: " ++ complaint ++ lit ")")
       ++ lit ". Please try again."
  /\ List.length (substring0 100 text) <= 100.
Proof.
  intros Hn Hok Hb Hne Hp run. subst run.
  assert (Hs : settle responseSchema (Responded r)
               = Thrown (JsError (lit "AI returned invalid response format: "
                                    ++ substring0 100 text ++ lit "... (Error: "
                                    ++ complaint ++ lit ")"))).
  { unfold settle. rewrite Hok. cbn. unfold response_text. rewrite Hb. cbn.
    destruct text as [|c t]; [congruence|].
    unfold parse. rewrite Hp. reflexivity. }
  rewrite callGeminiApi_run. cbv zeta. rewrite Hn, Hs.
  split; [reflexivity|]. split; [reflexivity|].
  unfold substring0. apply firstn_le_length.
Qed.

(** When [fetch] itself rejects, the message of the rejection is what the
    error reports, and the gateway returns its placeholder. *)
Theorem callGeminiApi_reports_rejection
    (promptText modelName : jsstring) (responseSchema : option Schema)
    (w : World) (e : exn) :
  net (api_request promptText modelName responseSchema) = Rejected e ->
  let run := callGeminiApi net promptText modelName responseSchema w in
  snd run = Val (placeholder responseSchema)
  /\ error (view (fst run))
     = lit "Failed to connect to AI: " ++ message e ++ lit ". Please try again.".
Proof.
  intros Hn run. subst run. rewrite callGeminiApi_run. cbv zeta.
  rewrite Hn. split; reflexivity.
Qed.

(** [errorData.error?.message || response.statusText]: when the parsed
    error body has no [error], or its [error] has no usable [message],
    the detail is the status text of the response. *)
Lemma error_detail_falls_back (errorData err : value) (r : Response) :
  get_field errorData (lit "error") = Val err ->
  truthy (field err "message") = false ->
  error_detail errorData r = Val (statusText r).
Proof.
  intros He Hm. unfold error_detail. rewrite He. cbn.
  unfold field in Hm.
  destruct err; cbn in *; try (rewrite Hm); reflexivity.
Qed.

(** A non-success status whose body parses but gives no reason: the
    message carries the status code and the status text. *)
Theorem callGeminiApi_falls_back_to_status_text
    (promptText modelName : jsstring) (responseSchema : option Schema)
    (w : World) (r : Response) (text : jsstring) (errorData err : value) :
  net (api_request promptText modelName responseSchema) = Responded r ->
  ok r = false -> payload r = BodyText text ->
  JSON_parse text = inr errorData ->
  get_field errorData (lit "error") = Val err ->
  truthy (field err "message") = false ->
  error (view (fst (callGeminiApi net promptText modelName responseSchema w)))
  = lit "Failed to connect to AI: "
    ++ (lit "API error: " ++ of_N (status r) ++ lit " - " ++ statusText r)
    ++ lit ". Please try again.".
Proof.
  intros Hn Hok Hb Hp He Hm. rewrite callGeminiApi_run. cbv zeta.
  rewrite Hn. unfold settle. rewrite Hok. cbn.
  unfold response_json, response_text. rewrite Hb. cbn.
  unfold parse. rewrite Hp. cbn.
  rewrite (error_detail_falls_back _ r He Hm). reflexivity.
Qed.

End GatewayCases.

(** ** The handlers, branch by branch *)

Section HandlerCases.

Context {E : Engine}.

(** The application's gateway in one equation. *)
Lemma callGeminiApi_answer (net : Request -> FetchOutcome)
    (promptText modelName : jsstring) (responseSchema : option Schema)
    (w : World) :
  callGeminiApi net promptText modelName responseSchema w
  = (mkWorld (set_error (fst (answer net promptText modelName responseSchema))
                        (view w))
             (api_request promptText modelName responseSchema :: sent w)
             (timers w),
     Val (snd (answer net promptText modelName responseSchema))).
Proof.
  rewrite callGeminiApi_run. cbv zeta. unfold answer.
  destruct (settle _ _); reflexivity.
Qed.

(** When the gateway hands back a result the handler can use, the [try]
    statement takes the success branch and lowers the flag. *)
Lemma handler_try_usable
    (gateway : jsstring -> jsstring -> option Schema -> M value)
    (op : Op) (prompt : jsstring) (w w1 : World) (r : value) :
  gateway prompt default_modelName (schema_of op) w = (w1, Val r) ->
  usable op r = true ->
  handler_try gateway op prompt w
  = (with_view (lowers op) (accept op r w1), Val tt).
Proof.
  intros Hg Hu.
  destruct op; open_try;
    unfold setIsLoadingEnhance, setIsLoadingPreview, setIsLoadingNames,
      setIsLoadingMonetization, setIsLoadingTechStack;
    rewrite try_finally_modify; unfold try_catch, bind, lift;
    unfold default_modelName, schema_of in *; rewrite Hg;
    unfold usable in Hu.
  - rewrite Hu. reflexivity.
  - apply andb_true_iff in Hu. destruct Hu as [Hr Hd].
    rewrite Hr, (truthy_get_field _ "description" Hr), Hd. reflexivity.
  - apply andb_true_iff in Hu. destruct Hu as [Hu Ht].
    apply andb_true_iff in Hu. destruct Hu as [Hr Hn].
    rewrite Hr, (truthy_get_field _ "names" Hr), Hn.
    rewrite (truthy_get_field _ "taglines" Hr), Ht. reflexivity.
  - apply andb_true_iff in Hu. destruct Hu as [Hr Hs].
    rewrite Hr, (truthy_get_field _ "strategies" Hr), Hs. reflexivity.
  - rewrite Hu. reflexivity.
Qed.

(** The [try] statement over the application's gateway, in one
    equation. *)
Lemma handler_try_run (net : Request -> FetchOutcome)
    (op : Op) (prompt : jsstring) (w : World) :
  handler_try (callGeminiApi net) op prompt w
  = let a := answer net prompt default_modelName (schema_of op) in
    let w1 := mkWorld (set_error (fst a) (view w))
                (api_request prompt default_modelName (schema_of op) :: sent w)
                (timers w) in
    (with_view (lowers op)
       (if usable op (snd a) then accept op (snd a) w1
        else with_view (reject op) w1),
     Val tt).
Proof.
  cbv zeta.
  destruct (usable op (snd (answer net prompt default_modelName (schema_of op))))
    eqn:Hu.
  - apply handler_try_usable; [apply callGeminiApi_answer | exact Hu].
  - rewrite (@handler_try_unusable _ (callGeminiApi net) op prompt w _ _
               (callGeminiApi_answer net prompt default_modelName (schema_of op) w)
               Hu).
    reflexivity.
Qed.

(** The Loading to Success transition.  When the gateway call of an
    operation returns a result its handler can use, the handler completes
    with the result in the operation's slot (for monetization, the
    [strategies] of the result), the flag lowered and the error as the
    gateway left it; enhancement and preview schedule the scroll to
    their section. *)
Theorem usable_result_is_stored
    (gateway : jsstring -> jsstring -> option Schema -> M value)
    (op : Op) (w w1 : World) (prompt : jsstring) (r : value) :
  prepare op (view w) = Val (Some prompt) ->
  gateway prompt default_modelName (schema_of op) (with_view (enter op) w)
  = (w1, Val r) ->
  usable op r = true ->
  let w' := fst (handler gateway op w) in
  snd (handler gateway op w) = Val tt
  /\ result_slot op (view w')
     = match op with
       | Monetization => field r "strategies"
       | _ => r
       end
  /\ loading op (view w') = false
  /\ error (view w') = error (view w1)
  /\ timers w'
     = match op with
       | Enhance => enhancedPromptRef :: timers w1
       | Preview => appPreviewRef :: timers w1
       | _ => timers w1
       end.
Proof.
  intros Hp Hg Hu.
  rewrite (handler_entered gateway op w Hp).
  rewrite (handler_try_usable gateway op prompt _ Hg Hu).
  destruct op; repeat split.
Qed.

(** When the gateway itself throws: the preview handler catches the
    exception, resets the preview and completes; the other four handlers
    let it escape.  All five lower their flag first. *)
Theorem gateway_exception_caught_by_preview_only
    (gateway : jsstring -> jsstring -> option Schema -> M value)
    (op : Op) (w w1 : World) (prompt : jsstring) (e : exn) :
  prepare op (view w) = Val (Some prompt) ->
  gateway prompt default_modelName (schema_of op) (with_view (enter op) w)
  = (w1, Thrown e) ->
  let w' := fst (handler gateway op w) in
  snd (handler gateway op w)
  = match op with
    | Preview => Val tt
    | _ => Thrown e
    end
  /\ loading op (view w') = false
  /\ view w'
     = lowers op (match op with
                  | Preview => set_appPreview JNull (view w1)
                  | _ => view w1
                  end).
Proof.
  intros Hp Hg.
  rewrite (handler_entered gateway op w Hp).
  destruct op; open_try;
    unfold setIsLoadingEnhance, setIsLoadingPreview, setIsLoadingNames,
      setIsLoadingMonetization, setIsLoadingTechStack;
    rewrite try_finally_modify; unfold try_catch, bind, lift;
    unfold default_modelName, schema_of in *; rewrite Hg;
    repeat split.
Qed.

Lemma no_description_total (v : value) :
  no_description v = Val (negb (truthy v && truthy (field v "description"))).
Proof.
  unfold no_description. destruct (truthy v) eqn:Hv; cbn.
  - rewrite (truthy_get_field _ "description" Hv). reflexivity.
  - reflexivity.
Qed.

Lemma auxiliary_threw
    (gateway : jsstring -> jsstring -> option Schema -> M value)
    (op : Op) (w : World) (e : exn) :
  auxiliary op = true ->
  prepare op (view w) = Thrown e ->
  handler gateway op w = (with_view (enter op) w, Thrown e).
Proof.
  intros Haux.
  { destruct op; try discriminate; unfold prepare, handler.
    - unfold handleGenerateNamesSlogans, bind, get_view, lift.
      rewrite no_description_total.
      destruct (negb _); cbn; [discriminate|].
      destruct (cbind _ to_string); cbn; [discriminate|].
      intros H; injection H as ->; reflexivity.
    - unfold handleGenerateMonetizationStrategies, bind, get_view, lift.
      rewrite no_description_total.
      destruct (negb _); cbn; [discriminate|].
      destruct (cbind _ to_string); cbn; [discriminate|].
      intros H; injection H as ->; reflexivity.
    - unfold handleGenerateTechStack, bind, get_view, lift.
      rewrite no_description_total.
      destruct (negb _); cbn; [discriminate|].
      destruct (cbind _ to_string); cbn;
        [|intros H; injection H as ->; reflexivity].
      destruct (cbind (get_field _ (lit "keyFeatures")) _); cbn; [discriminate|].
      intros H; injection H as ->; reflexivity. }
Qed.

(** When building the prompt of a follow-on generation throws, the
    handler has already entered Loading and nothing lowers the flag
    again: the building stands before the [try]. *)
Theorem prompt_failure_leaves_flag_raised
    (gateway : jsstring -> jsstring -> option Schema -> M value)
    (op : Op) (w : World) (e : exn) :
  auxiliary op = true ->
  prepare op (view w) = Thrown e ->
  handler gateway op w = (with_view (enter op) w, Thrown e)
  /\ loading op (view (fst (handler gateway op w))) = true
  /\ sent (fst (handler gateway op w)) = sent w.
Proof.
  intros Haux Hp. rewrite (auxiliary_threw gateway op w Haux Hp).
  destruct op; try discriminate; repeat split.
Qed.

Section OverCallGeminiApi.

Variable net : Request -> FetchOutcome.

(** Where each handler ends over the application's gateway. *)
Lemma handler_run (op : Op) (w : World) :
  handler (callGeminiApi net) op w
  = match prepare op (view w) with
    | Val None => (with_view (set_error (guidance op)) w, Val tt)
    | Val (Some prompt) =>
        handler_try (callGeminiApi net) op prompt (with_view (enter op) w)
    | Thrown e => (fst (handler (callGeminiApi net) op w), Thrown e)
    end.
Proof.
  destruct (prepare op (view w)) as [[prompt|]|e] eqn:Hp.
  - apply handler_entered. exact Hp.
  - apply handler_rejected. exact Hp.
  - rewrite <- (handler_threw (callGeminiApi net) op w Hp).
    destruct (handler _ _ _). reflexivity.
Qed.

Lemma preview_threw_world (w : World) (e : exn) :
  prepare Preview (view w) = Thrown e ->
  fst (handler (callGeminiApi net) Preview w) = w.
Proof.
  unfold prepare, handler, handleGenerateAppPreview, bind, get_view, lift.
  destruct (trim_value _) as [[|c t]|e']; cbn; try discriminate. reflexivity.
Qed.

Lemma auxiliary_or_not (op : Op) :
  auxiliary op = true \/ op = Enhance \/ op = Preview.
Proof. destruct op; auto. Qed.

Lemma enhance_prepares (s : State) (e : exn) : prepare Enhance s <> Thrown e.
Proof. unfold prepare. destruct (trim _); discriminate. Qed.

(** A trigger sends one request when it passes its precondition and its
    prompt is built, and none otherwise.  The request is the gateway's
    for that prompt and the operation's schema. *)
Theorem handler_sends_at_most_one_request (op : Op) (w : World) :
  sent (fst (handler (callGeminiApi net) op w))
  = match prepare op (view w) with
    | Val (Some prompt) =>
        api_request prompt default_modelName (schema_of op) :: sent w
    | _ => sent w
    end.
Proof.
  destruct (prepare op (view w)) as [[prompt|]|e] eqn:Hp.
  - rewrite handler_run, Hp, handler_try_run. cbv zeta.
    destruct (usable _ _); destruct op; reflexivity.
  - rewrite handler_run, Hp. reflexivity.
  - destruct (auxiliary_or_not op) as [Ha | [-> | ->]].
    + rewrite (auxiliary_threw (callGeminiApi net) op w Ha Hp). reflexivity.
    + destruct (enhance_prepares _ Hp).
    + rewrite (preview_threw_world w Hp). reflexivity.
Qed.

(** Over the application's gateway a handler throws only when building
    its prompt throws.  The enhance handler never does; the preview
    handler does not when the editable prompt is a string. *)
Theorem handler_completes_unless_prompt_throws (op : Op) (w : World) :
  snd (handler (callGeminiApi net) op w)
  = match prepare op (view w) with
    | Thrown e => Thrown e
    | _ => Val tt
    end
  /\ snd (handler (callGeminiApi net) Enhance w) = Val tt
  /\ (forall t, customPrompt (view w) = JStr t ->
       snd (handler (callGeminiApi net) Preview w) = Val tt).
Proof.
  assert (H : forall op',
             snd (handler (callGeminiApi net) op' w)
             = match prepare op' (view w) with
               | Thrown e => Thrown e
               | _ => Val tt
               end).
  { intros op'. rewrite handler_run.
    destruct (prepare op' (view w)) as [[prompt|]|e]; try reflexivity.
    rewrite handler_try_run. reflexivity. }
  split; [apply H|]. split.
  - rewrite H. destruct (prepare Enhance (view w)) as [[?|]|e] eqn:Hp;
      try reflexivity. destruct (enhance_prepares _ Hp).
  - intros t Ht. rewrite H. unfold prepare. rewrite Ht. cbn.
    destruct (trim t); reflexivity.
Qed.

(** A follow-on generation changes its own slot, its own flag and the
    error, and nothing else of the view: the idea, the prompts, the
    preview and the results and flags of the other operations are as
    they were, whatever the outcome. *)
Theorem auxiliary_handler_touches_own_slot_only (op : Op) (w : World) :
  auxiliary op = true ->
  let s := view w in
  let s' := view (fst (handler (callGeminiApi net) op w)) in
  simpleIdea s' = simpleIdea s
  /\ enhancedPrompt s' = enhancedPrompt s
  /\ customPrompt s' = customPrompt s
  /\ appPreview s' = appPreview s
  /\ isPromptEnhanced s' = isPromptEnhanced s
  /\ forall op', op' <> op ->
       result_slot op' s' = result_slot op' s
       /\ loading op' s' = loading op' s.
Proof.
  intros Haux. cbv zeta.
  destruct (prepare op (view w)) as [[prompt|]|e] eqn:Hp.
  - rewrite handler_run, Hp, handler_try_run. cbv zeta.
    destruct (usable _ _); destruct op; try discriminate;
      repeat split; destruct op'; try reflexivity; congruence.
  - rewrite handler_run, Hp.
    destruct op; try discriminate;
      repeat split; destruct op'; try reflexivity; congruence.
  - rewrite (auxiliary_threw (callGeminiApi net) op w Haux Hp).
    destruct op; try discriminate;
      repeat split; destruct op'; try reflexivity; congruence.
Qed.

(** Generating again clears what is downstream, whatever the outcome.
    After an enhancement that passed its precondition, the preview and
    the three follow-on results are absent; after a preview generation
    that passed its precondition, the three follow-on results are absent
    and the idea and both prompts are as they were. *)
Theorem regeneration_clears_downstream (op : Op) (w : World) (prompt : jsstring) :
  auxiliary op = false ->
  prepare op (view w) = Val (Some prompt) ->
  let s := view w in
  let s' := view (fst (handler (callGeminiApi net) op w)) in
  appNamesSlogans s' = JNull
  /\ monetizationStrategies s' = JNull
  /\ techStackSuggestions s' = JNull
  /\ simpleIdea s' = simpleIdea s
  /\ match op with
     | Enhance => appPreview s' = JNull
     | _ => enhancedPrompt s' = enhancedPrompt s
            /\ customPrompt s' = customPrompt s
            /\ isPromptEnhanced s' = isPromptEnhanced s
     end.
Proof.
  intros Haux Hp. cbv zeta.
  rewrite handler_run, Hp, handler_try_run. cbv zeta.
  destruct (usable _ _); destruct op; try discriminate; repeat split.
Qed.

(** A tech stack generation whose gateway call failed stores the
    gateway's placeholder, the empty object, as its result, and leaves
    the gateway's message as the error: the screen then shows the error
    and, in the tech stack section, that there are no specific
    suggestions. *)
Theorem tech_stack_keeps_gateway_placeholder
    (w : World) (prompt : jsstring) (err : exn) :
  prepare TechStack (view w) = Val (Some prompt) ->
  settle (Some techStackSchema)
         (net (api_request prompt default_modelName (Some techStackSchema)))
  = Thrown err ->
  let s' := view (fst (handler (callGeminiApi net) TechStack w)) in
  techStackSuggestions s' = JObj []
  /\ error s' = lit "Failed to connect to AI: " ++ message err
                ++ lit ". Please try again."
  /\ isLoadingTechStack s' = false
  /\ shows_error s' = true
  /\ shows_tech_stack s' = true
  /\ shows_no_suggestions s' = true.
Proof.
  intros Hp Hs. cbv zeta.
  assert (Hshown : truthy (appPreview (view w)) = true).
  { unfold prepare in Hp. rewrite no_description_total in Hp.
    destruct (truthy (appPreview (view w))); [reflexivity | discriminate]. }
  rewrite handler_run, Hp, handler_try_run. cbv zeta.
  unfold answer, schema_of. rewrite Hs.
  unfold shows_no_suggestions, shows_tech_stack, shows_preview, shows_error.
  cbn [fst snd usable placeholder empty_object truthy accept lowers with_view
       view appPreview techStackSuggestions error isLoadingTechStack
       set_isLoadingTechStack set_techStackSuggestions set_error no_keys andb].
  change (appPreview (enter TechStack (view w))) with (appPreview (view w)).
  rewrite Hshown. repeat split.
Qed.

(** A monetization reply with an empty list of strategies is a success:
    the empty list is stored and no error is set, and the screen shows
    neither a list nor an error. *)
Theorem empty_strategies_stored_but_hidden
    (w : World) (prompt : jsstring) (r : value) :
  prepare Monetization (view w) = Val (Some prompt) ->
  answer net prompt default_modelName (Some monetizationSchema) = ([], r) ->
  truthy r = true ->
  field r "strategies" = JArr [] ->
  let s' := view (fst (handler (callGeminiApi net) Monetization w)) in
  monetizationStrategies s' = JArr []
  /\ error s' = []
  /\ isLoadingMonetization s' = false
  /\ shows_monetization s' = Val false
  /\ shows_error s' = false.
Proof.
  intros Hp Ha Hr Hs. cbv zeta.
  rewrite handler_run, Hp, handler_try_run. cbv zeta.
  unfold schema_of. rewrite Ha. cbn [fst snd]. unfold usable.
  rewrite Hr, Hs. cbn [truthy andb]. unfold shows_monetization.
  cbn [accept lowers with_view view monetizationStrategies error
       isLoadingMonetization set_isLoadingMonetization
       set_monetizationStrategies set_error shows_preview shows_error
       appPreview].
  rewrite Hs. repeat split.
  unfold shows_preview. cbn. destruct (truthy (appPreview (view w))); reflexivity.
Qed.

(** An enhancement the service answers with an empty text, or with a
    part without text, ends without a word: no error, no prompt, the
    flag lowered, and [isPromptEnhanced] as it was. *)
Theorem empty_enhancement_is_silent (w : World) (r : value) :
  blank (simpleIdea (view w)) = false ->
  answer net (enhancementPrompt (simpleIdea (view w))) default_modelName None
  = ([], r) ->
  truthy r = false ->
  let s' := view (fst (handler (callGeminiApi net) Enhance w)) in
  error s' = []
  /\ enhancedPrompt s' = JStr []
  /\ customPrompt s' = JStr []
  /\ isLoadingEnhance s' = false
  /\ isPromptEnhanced s' = isPromptEnhanced (view w)
  /\ timers (fst (handler (callGeminiApi net) Enhance w)) = timers w.
Proof.
  intros Hidea Ha Hr. cbv zeta.
  assert (Hp : prepare Enhance (view w)
               = Val (Some (enhancementPrompt (simpleIdea (view w))))).
  { unfold prepare. destruct (StrFacts.trim_cons _ Hidea) as [c [t ->]].
    reflexivity. }
  rewrite handler_run, Hp, handler_try_run. cbv zeta.
  unfold schema_of. rewrite Ha. cbn [fst snd]. unfold usable. rewrite Hr.
  repeat split.
Qed.

End OverCallGeminiApi.

Lemma join_items_strings (sep : jsstring) (items : list jsstring) :
  join_items sep (map (fun t => JStr t) items) = Val (intercalate sep items).
Proof.
  induction items as [|x r IH]; [reflexivity|].
  cbn [map join_items to_string cbind].
  destruct r as [|y r']; [reflexivity|].
  cbn [map] in *. rewrite IH. reflexivity.
Qed.

(** The prompt of the tech stack generation, for a preview with a text
    as description: without key features it says "Not provided"; with a
    list of texts it lists them, separated by a comma and a space (an
    empty list gives an empty listing). *)
Theorem tech_stack_prompt_lists_features
    (s : State) (props : list (jsstring * value)) (description : jsstring) :
  appPreview s = JObj props ->
  lookup (lit "description") props = Some (JStr description) ->
  description <> [] ->
  (lookup (lit "keyFeatures") props = None ->
   prepare TechStack s
   = Val (Some (techStackPrompt description (lit "Not provided"))))
  /\ (forall features,
         lookup (lit "keyFeatures") props
         = Some (JArr (map (fun t => JStr t) features)) ->
         prepare TechStack s
         = Val (Some (techStackPrompt description
                        (intercalate (lit ", ") features)))).
Proof.
  intros Hs Hd Hne.
  assert (Hno : no_description (appPreview s) = Val false).
  { rewrite no_description_total, Hs. unfold field. cbn. rewrite Hd.
    destruct description; [congruence | reflexivity]. }
  split.
  - intros Hk. unfold prepare. rewrite Hno. cbn. rewrite Hs. cbn.
    rewrite Hd, Hk. reflexivity.
  - intros features Hk. unfold prepare. rewrite Hno. cbn. rewrite Hs. cbn.
    rewrite Hd, Hk. cbn. unfold join. rewrite join_items_strings. reflexivity.
Qed.

End HandlerCases.

(** ** Handlers in two halves *)

Section TwoHalves.

Context {E : Engine}.

Lemma callGeminiApi_resume_run (responseSchema : option Schema)
    (outcome : FetchOutcome) (w : World) :
  callGeminiApi_resume responseSchema outcome w
  = match settle responseSchema outcome with
    | Val v => (w, Val v)
    | Thrown err =>
        (with_view (set_error (failure_message err)) w,
         Val (placeholder responseSchema))
    end.
Proof.
  unfold callGeminiApi_resume, try_catch, lift, bind, setError, modify, ret.
  destruct (settle _ _); reflexivity.
Qed.

(** Where the second half of a handler ends. *)
Lemma resume_run (op : Op) (outcome : FetchOutcome) (w : World) :
  resume op outcome w
  = let w1 := fst (callGeminiApi_resume (schema_of op) outcome w) in
    match snd (callGeminiApi_resume (schema_of op) outcome w) with
    | Val r =>
        (with_view (lowers op)
           (if usable op r then accept op r w1 else with_view (reject op) w1),
         Val tt)
    | Thrown e => (w1, Thrown e)
    end.
Proof.
  cbv zeta.
  destruct (callGeminiApi_resume (schema_of op) outcome w) as [w1 [r|e]] eqn:Hg.
  - cbn [fst snd]. unfold resume.
    destruct (usable op r) eqn:Hu.
    + apply handler_try_usable; [exact Hg | exact Hu].
    + rewrite (@handler_try_unusable _ _ op [] w w1 r Hg Hu). reflexivity.
  - rewrite callGeminiApi_resume_run in Hg.
    destruct (settle _ _); discriminate.
Qed.

(** A handler over the application's gateway is its first half, up to
    the [fetch], followed when a request was sent by its second half on
    what the network answered.  Every update of the view of the second
    half comes after the last [await]. *)
Theorem handler_is_begin_then_resume
    (net : Request -> FetchOutcome) (op : Op) (w : World) :
  handler (callGeminiApi net) op w
  = match begin op w with
    | (w1, Val (Some request)) => resume op (net request) w1
    | (w1, Val None) => (w1, Val tt)
    | (w1, Thrown e) => (w1, Thrown e)
    end.
Proof.
  unfold begin.
  destruct (prepare op (view w)) as [[prompt|]|e] eqn:Hp.
  - rewrite (handler_entered (callGeminiApi net) op w Hp).
    rewrite handler_try_run, resume_run, callGeminiApi_resume_run.
    cbv zeta. unfold answer.
    destruct (settle (schema_of op) _) as [v|err]; cbn [fst snd].
    + destruct (usable op v); destruct op; reflexivity.
    + destruct (usable op (placeholder (schema_of op))); destruct op; reflexivity.
  - apply handler_rejected. exact Hp.
  - destruct (auxiliary_or_not op) as [Ha | [-> | ->]].
    + rewrite Ha.
      rewrite (auxiliary_threw (callGeminiApi net) op w Ha Hp). reflexivity.
    + destruct (enhance_prepares _ Hp).
    + cbn [auxiliary].
      rewrite (surjective_pairing (handler (callGeminiApi net) Preview w)).
      rewrite (preview_threw_world net w Hp).
      rewrite (handler_threw (callGeminiApi net) Preview w Hp). reflexivity.
Qed.

End TwoHalves.

(** ** Sessions *)

Section ListFacts.

Context {A : Type}.

Lemma remove_nth_In (n : nat) (l : list A) (x : A) :
  In x (remove_nth n l) -> In x l.
Proof.
  revert n. induction l as [|a l IH]; intros [|n]; simpl; auto.
  intros [H|H]; auto. right. exact (IH n H).
Qed.

Lemma remove_nth_NoDup (n : nat) (l : list A) :
  NoDup l -> NoDup (remove_nth n l).
Proof.
  intros H. revert n. induction H as [|a l Ha Hl IH]; intros [|n]; simpl.
  - constructor.
  - constructor.
  - exact Hl.
  - constructor; [|apply IH]. intros Hin. apply Ha.
    exact (remove_nth_In n l a Hin).
Qed.

Lemma remove_nth_dropped (n : nat) (l : list A) (y : A) :
  NoDup l -> nth_error l n = Some y -> ~ In y (remove_nth n l).
Proof.
  intros H. revert n. induction H as [|a l Ha Hl IH]; intros [|n]; simpl;
    try discriminate.
  - intros Hy. injection Hy as <-. exact Ha.
  - intros Hy [Heq|Hin].
    + subst a. apply Ha. exact (nth_error_In l n Hy).
    + exact (IH n Hy Hin).
Qed.

End ListFacts.

Lemma Some_inj {A} (a b : A) : Some a = Some b -> a = b.
Proof. intros H. injection H as H. exact H. Qed.

Lemma map_remove_nth {A B} (f : A -> B) (n : nat) (l : list A) :
  map f (remove_nth n l) = remove_nth n (map f l).
Proof.
  revert n. induction l as [|a l IH]; intros [|n]; simpl; auto.
  rewrite IH. reflexivity.
Qed.

Section Sessions.

Context {E : Engine}.

(** *** What one event does to the flags and to the preview *)

Lemma enter_flags (op op' : Op) (s : State) :
  (op' = op -> loading op' (enter op s) = true)
  /\ (op' <> op -> loading op' (enter op s) = loading op' s).
Proof.
  destruct op, op'; split; intros H;
    first [reflexivity | discriminate | exfalso; apply H; reflexivity].
Qed.

Lemma resume_view (op : Op) (outcome : FetchOutcome) (w : World) :
  exists e r,
    view (fst (resume op outcome w))
    = lowers op (if usable op r
                 then view (accept op r (with_view e w))
                 else reject op (e (view w)))
    /\ (forall s, appPreview (e s) = appPreview s)
    /\ (forall s op', loading op' (e s) = loading op' s).
Proof.
  rewrite resume_run, callGeminiApi_resume_run. cbv zeta.
  destruct (settle (schema_of op) outcome) as [v|err]; cbn [fst snd].
  - exists (fun s => s), v. split; [|split].
    + destruct (usable op v); destruct op; reflexivity.
    + reflexivity.
    + reflexivity.
  - exists (set_error (failure_message err)), (placeholder (schema_of op)).
    split; [|split].
    + destruct (usable op _); destruct op; reflexivity.
    + reflexivity.
    + intros s op'. destruct op'; reflexivity.
Qed.

Lemma resume_keeps_other_flags (op op' : Op) (outcome : FetchOutcome) (w : World) :
  op' <> op ->
  loading op' (view (fst (resume op outcome w))) = loading op' (view w).
Proof.
  intros Hne. destruct (resume_view op outcome w) as [e [r [-> [_ He]]]].
  rewrite <- (He (view w) op').
  destruct (usable op r); destruct op, op';
    first [reflexivity | exfalso; apply Hne; reflexivity].
Qed.

Lemma resume_keeps_preview_well_formed (op : Op) (outcome : FetchOutcome)
    (w : World) :
  preview_well_formed (view w) ->
  preview_well_formed (view (fst (resume op outcome w))).
Proof.
  unfold preview_well_formed.
  destruct (resume_view op outcome w) as [e [r [-> [He _]]]].
  rewrite <- (He (view w)).
  destruct (usable op r) eqn:Hu; destruct op; cbn; auto.
  unfold usable in Hu. apply andb_true_iff in Hu. right. exact Hu.
Qed.

Lemma begin_keeps_preview_well_formed (op : Op) (w : World) :
  preview_well_formed (view w) ->
  preview_well_formed (view (fst (begin op w))).
Proof.
  unfold preview_well_formed, begin.
  destruct (prepare op (view w)) as [[prompt|]|e]; destruct op; cbn; auto.
Qed.

Lemma enabled_not_loading (op : Op) (s : State) :
  button_enabled op s = true -> loading op s = false.
Proof.
  destruct op; cbn; unfold enhance_disabled, preview_disabled.
  - intros H. apply negb_true_iff in H. exact H.
  - intros H. apply andb_true_iff in H. destruct H as [_ H].
    destruct (isLoadingPreview s); [discriminate | reflexivity].
  - intros H. apply andb_true_iff in H. destruct H as [_ H].
    apply negb_true_iff in H. exact H.
  - intros H. apply andb_true_iff in H. destruct H as [_ H].
    apply negb_true_iff in H. exact H.
  - intros H. apply andb_true_iff in H. destruct H as [_ H].
    apply negb_true_iff in H. exact H.
Qed.

Lemma begin_flags (op op' : Op) (w : World) :
  op' <> op ->
  loading op' (view (fst (begin op w))) = loading op' (view w).
Proof.
  intros Hne. unfold begin.
  destruct (prepare op (view w)) as [[prompt|]|e]; cbn [fst].
  - destruct op, op'; first [reflexivity | exfalso; apply Hne; reflexivity].
  - destruct op'; reflexivity.
  - destruct op, op'; first [reflexivity | exfalso; apply Hne; reflexivity].
Qed.

(** *** Invariants of every session *)

(** In every session, however requests and events interleave, the
    preview slot holds nothing or an object with a description. *)
Theorem preview_stays_well_formed (session : Session) :
  reachable session -> preview_well_formed (view (now session)).
Proof.
  induction 1 as [|session session' e _ IH Hstep].
  - left. reflexivity.
  - destruct e as [v|v|op|n outcome]; unfold react in Hstep; cbv zeta in Hstep.
    + apply Some_inj in Hstep; subst session'. left. reflexivity.
    + destruct (shows_prompt _); [|discriminate].
      apply Some_inj in Hstep; subst session'. exact IH.
    + destruct (button_enabled _ _); [|discriminate].
      pose proof (begin_keeps_preview_well_formed op (now session) IH) as H.
      destruct (begin op (now session)) as [w' [[request|]|err]];
        apply Some_inj in Hstep; subst session'; exact H.
    + destruct (nth_error _ _) as [[op request]|]; [|discriminate].
      apply Some_inj in Hstep; subst session'. cbn [now].
      apply resume_keeps_preview_well_formed. exact IH.
Qed.

(** In every session no operation has two requests in flight, and each
    operation with a request in flight has its loading flag raised: the
    buttons are disabled by the flags the handlers raise. *)
Theorem one_request_in_flight (session : Session) :
  reachable session -> one_in_flight session.
Proof.
  induction 1 as [|session session' e _ [IHn IHf] Hstep].
  - split; [constructor | intros op []].
  - destruct e as [v|v|op|n outcome]; unfold react in Hstep; cbv zeta in Hstep.
    + apply Some_inj in Hstep; subst session'. split; [exact IHn|].
      intros op Hin. rewrite <- (IHf op Hin). destruct op; reflexivity.
    + destruct (shows_prompt _); [|discriminate].
      apply Some_inj in Hstep; subst session'. split; [exact IHn|].
      intros op Hin. rewrite <- (IHf op Hin). destruct op; reflexivity.
    + destruct (button_enabled _ _) eqn:Hen; [|discriminate].
      apply enabled_not_loading in Hen.
      assert (Hfresh : ~ In op (map fst (inflight session))).
      { intros Hin. rewrite (IHf op Hin) in Hen. discriminate. }
      assert (Hothers : forall op', In op' (map fst (inflight session)) ->
                 loading op' (view (fst (begin op (now session)))) = true).
      { intros op' Hin. rewrite begin_flags; [exact (IHf op' Hin)|].
        intros ->. exact (Hfresh Hin). }
      unfold begin in *.
      destruct (prepare op (view (now session))) as [[prompt|]|err];
        apply Some_inj in Hstep; subst session'; cbn [now inflight fst] in *.
      * split; cbn [map fst].
        -- constructor; assumption.
        -- intros op' [<-|Hin]; [|exact (Hothers op' Hin)].
           cbn. apply (proj1 (enter_flags op op _)). reflexivity.
      * split; assumption.
      * split; assumption.
    + destruct (nth_error _ _) as [[op request]|] eqn:Hn; [|discriminate].
      apply Some_inj in Hstep; subst session'.
      assert (Hop : nth_error (map fst (inflight session)) n = Some op).
      { rewrite nth_error_map, Hn. reflexivity. }
      unfold one_in_flight. cbn [now inflight].
      rewrite map_remove_nth. split.
      * apply remove_nth_NoDup. exact IHn.
      * intros op' Hin. rewrite resume_keeps_other_flags.
        -- apply IHf. exact (remove_nth_In _ _ _ Hin).
        -- intros ->. exact (remove_nth_dropped n IHn Hop Hin).
Qed.

End Sessions.

(** ** What sessions never do, and what they can do *)

Section SessionProperties.

Context {E : Engine}.

Lemma starts_with_F (x : jsstring) (op : Op) :
  lit "Failed to connect to AI: " ++ x <> guidance op.
Proof.
  intros H. apply (f_equal (@hd_error N)) in H.
  destruct op; vm_compute in H; discriminate.
Qed.

Lemma incomplete_is_no_guidance (op op' : Op) :
  op <> Enhance -> incomplete_message op <> guidance op'.
Proof.
  intros Hne H. apply (f_equal (@hd_error N)) in H.
  destruct op; try (exfalso; apply Hne; reflexivity);
    destruct op'; vm_compute in H; discriminate.
Qed.

(** The error after the second half of a handler: the error before, the
    gateway's message, or the handler's own. *)
Lemma resume_error (op : Op) (outcome : FetchOutcome) (w : World) :
  error (view (fst (resume op outcome w))) = error (view w)
  \/ (exists err, error (view (fst (resume op outcome w))) = failure_message err)
  \/ (op <> Enhance
      /\ error (view (fst (resume op outcome w))) = incomplete_message op).
Proof.
  rewrite resume_run, callGeminiApi_resume_run. cbv zeta.
  destruct (settle (schema_of op) outcome) as [v|err]; cbn [fst snd].
  - destruct (usable op v).
    + left. destruct op; reflexivity.
    + destruct op; [left; reflexivity | right; right; split; [discriminate|reflexivity] ..].
  - destruct (usable op _).
    + right; left. exists err. destruct op; reflexivity.
    + destruct op;
        [right; left; exists err; reflexivity
        | right; right; split; [discriminate|reflexivity] ..].
Qed.

Lemma enabled_preview_prepares (s : State) :
  button_enabled Preview s = true -> prepare Preview s <> Val None.
Proof.
  cbn. unfold preview_disabled, prepare. intros H.
  apply andb_true_iff in H. destruct H as [_ H].
  destruct (isLoadingPreview s); [discriminate|].
  destruct (trim_value (customPrompt s)) as [[|c t]|e]; cbn in *; discriminate.
Qed.

Lemma enabled_auxiliary_prepares (op : Op) (s : State) :
  auxiliary op = true ->
  preview_well_formed s ->
  button_enabled op s = true -> prepare op s <> Val None.
Proof.
  intros Haux Hwf Hen.
  assert (Hshown : truthy (appPreview s) = true).
  { destruct op; try discriminate; cbn in Hen;
      apply andb_true_iff in Hen; exact (proj1 Hen). }
  assert (Hno : no_description (appPreview s) = Val false).
  { rewrite no_description_total. destruct Hwf as [Hnull | [_ Hd]].
    - rewrite Hnull in Hshown. discriminate.
    - rewrite Hshown, Hd. reflexivity. }
  destruct op; try discriminate; unfold prepare; rewrite Hno; cbn.
  - destruct (cbind _ to_string); discriminate.
  - destruct (cbind _ to_string); discriminate.
  - destruct (cbind _ to_string); cbn; [|discriminate].
    destruct (cbind (get_field _ (lit "keyFeatures")) _); discriminate.
Qed.

(** In every session, a click on an enabled button of the preview
    generation or of a follow-on generation passes the precondition check
    of its handler; so the two guidance messages of these handlers are
    never the error on display.  (Only the enhance button can be clicked
    with its precondition failing.) *)
Theorem gated_buttons_never_show_guidance (session : Session) :
  reachable session ->
  (forall op, op <> Enhance ->
     button_enabled op (view (now session)) = true ->
     prepare op (view (now session)) <> Val None)
  /\ error (view (now session)) <> guidance Preview
  /\ error (view (now session)) <> guidance Names.
Proof.
  intros Hreach.
  assert (Hgate : forall s, preview_well_formed s ->
            forall op, op <> Enhance -> button_enabled op s = true ->
                       prepare op s <> Val None).
  { intros s Hwf op Hne Hen.
    destruct (auxiliary_or_not op) as [Ha | [-> | ->]].
    - apply enabled_auxiliary_prepares; assumption.
    - exfalso. apply Hne. reflexivity.
    - apply enabled_preview_prepares; assumption. }
  assert (Hinv : preview_well_formed (view (now session))
                 /\ forall op, error (view (now session)) = guidance op ->
                               op = Enhance).
  { induction Hreach as [|session session' e _ [IHwf IHe] Hstep].
    - split; [left; reflexivity|].
      intros op H. destruct op; vm_compute in H; discriminate.
    - destruct e as [v|v|op|n outcome]; unfold react in Hstep;
        cbv zeta in Hstep.
      + apply Some_inj in Hstep; subst session'. split; [left; reflexivity|].
        intros op H. destruct op; vm_compute in H; discriminate.
      + destruct (shows_prompt _); [|discriminate].
        apply Some_inj in Hstep; subst session'. split; [exact IHwf|].
        exact IHe.
      + destruct (button_enabled _ _) eqn:Hen; [|discriminate].
        pose proof (begin_keeps_preview_well_formed op (now session) IHwf) as Hwf'.
        assert (Herr : forall op', error (view (fst (begin op (now session))))
                                   = guidance op' -> op' = Enhance).
        { unfold begin.
          destruct (prepare op (view (now session))) as [[prompt|]|err] eqn:Hp;
            cbn [fst].
          - intros op' H. destruct op, op'; vm_compute in H; discriminate.
          - assert (op = Enhance) as ->.
            { destruct op; try reflexivity;
                exfalso; refine (Hgate _ IHwf _ _ Hen Hp); discriminate. }
            intros op' H. cbn in H.
            destruct op'; try reflexivity;
              apply (f_equal (@List.length N)) in H; vm_compute in H;
              discriminate.
          - destruct (auxiliary op) eqn:Ha.
            + intros op' H. apply IHe. rewrite <- H.
              destruct op; try discriminate; reflexivity.
            + exact IHe. }
        destruct (begin op (now session)) as [w' [[request|]|err]];
          apply Some_inj in Hstep; subst session'; split; assumption.
      + destruct (nth_error _ _) as [[op request]|]; [|discriminate].
        apply Some_inj in Hstep; subst session'. cbn [now]. split.
        * apply resume_keeps_preview_well_formed. exact IHwf.
        * intros op' H.
          destruct (resume_error op outcome (now session))
            as [Hsame | [[err Hfail] | [Hne Hinc]]].
          -- apply IHe. rewrite <- Hsame. exact H.
          -- rewrite Hfail in H. unfold failure_message in H.
             exfalso. revert H. apply starts_with_F.
          -- rewrite Hinc in H. exfalso. revert H.
             apply incomplete_is_no_guidance. exact Hne. }
  destruct Hinv as [Hwf He]. split; [exact (Hgate _ Hwf)|]. split.
  - intros H. pose proof (He Preview H). discriminate.
  - intros H. pose proof (He Names H). discriminate.
Qed.


(** In a session without overlapping operations nothing is stored
    downstream of what is missing: while [isPromptEnhanced] is false
    both prompts are empty and there is no preview, and while there is no
    preview there is no follow-on result. *)
Theorem calm_sessions_stay_consistent (session : Session) :
  calm session ->
  inflight session = []
  /\ downstream_consistent (view (now session)).
Proof.
  induction 1 as [| session session' e _ [IHq IH] Hstep Hquiet
                 | session waiting session' op outcome _ [IHq IH] Hclick Hsettle].
  - split; [reflexivity|]. split; intros _; repeat split.
  - split; [exact Hquiet|].
    destruct e as [v|v|op|n outcome]; unfold react in Hstep; cbv zeta in Hstep.
    + apply Some_inj in Hstep; subst session'. split; intros _; repeat split.
    + destruct (shows_prompt _) eqn:Hshown; [|discriminate].
      apply Some_inj in Hstep; subst session'. unfold shows_prompt in Hshown.
      destruct IH as [_ IH2]. split.
      * cbn. intros H. rewrite H in Hshown. discriminate.
      * exact IH2.
    + destruct (button_enabled _ _); [|discriminate]. unfold begin in Hstep.
      destruct (prepare op (view (now session))) as [[prompt|]|err];
        apply Some_inj in Hstep; subst session'.
      * discriminate.
      * exact IH.
      * destruct IH as [IH1 IH2].
        destruct op; cbn; (split; [exact IH1|]); try exact IH2;
          intros H; destruct (IH2 H) as [? [? ?]]; repeat split; assumption.
    + rewrite IHq in Hstep. destruct n; discriminate.
  - unfold react in Hclick. cbv zeta in Hclick.
    destruct (button_enabled _ _); [|discriminate]. unfold begin in Hclick.
    destruct (prepare op (view (now session))) as [[prompt|]|err] eqn:Hp;
      apply Some_inj in Hclick; subst waiting;
      unfold react in Hsettle; cbn [inflight now] in Hsettle;
      rewrite IHq in Hsettle; try discriminate.
    cbn [nth_error remove_nth] in Hsettle.
    apply Some_inj in Hsettle; subst session'. split; [reflexivity|].
    cbn [now]. rewrite resume_run, callGeminiApi_resume_run. cbv zeta.
    destruct IH as [IH1 IH2].
    assert (Hflag : op <> Enhance -> isPromptEnhanced (view (now session)) = true).
    { intros Hne. destruct (isPromptEnhanced (view (now session))) eqn:Hf;
        [reflexivity|]. exfalso. destruct (IH1 eq_refl) as [_ [Hc Ha]].
      destruct op; try (apply Hne; reflexivity); unfold prepare in Hp.
      - rewrite Hc in Hp. discriminate.
      - rewrite no_description_total, Ha in Hp. discriminate.
      - rewrite no_description_total, Ha in Hp. discriminate.
      - rewrite no_description_total, Ha in Hp. discriminate. }
    assert (Hshown : auxiliary op = true -> appPreview (view (now session)) <> JNull).
    { intros Haux Ha. destruct op; try discriminate; unfold prepare in Hp;
        rewrite no_description_total, Ha in Hp; discriminate. }
    destruct (settle (schema_of op) outcome) as [v|e]; cbn [fst snd];
      match goal with |- context [usable ?o ?x] => destruct (usable o x) eqn:Hu end;
      destruct op; unfold downstream_consistent; cbn;
      repeat match goal with
             | |- _ /\ _ => split
             | |- _ -> _ => intros ?
             end;
      try reflexivity;
      try (exfalso; apply (Hshown eq_refl); assumption);
      try match goal with
          | H : isPromptEnhanced _ = false |- _ =>
              rewrite Hflag in H by discriminate; discriminate
          end;
      try discriminate;
      try match goal with
          | Hv : _ = JNull |- _ =>
              unfold usable in Hu; rewrite Hv in Hu; discriminate
          end;
      try (destruct (IH1 ltac:(assumption)) as [? [? ?]]; assumption).
Qed.

End SessionProperties.

(** ** The cases at work *)

Section RunFacts.

Context {E : Engine}.

Lemma run_reachable (events : list Event) (session session' : Session) :
  reachable session -> run events session = Some session' ->
  reachable session'.
Proof.
  revert session. induction events as [|e rest IH]; intros session Hr; simpl.
  - intros H. injection H as <-. exact Hr.
  - destruct (react e session) as [next|] eqn:He; [|discriminate].
    apply IH. exact (reachable_step e Hr He).
Qed.

Lemma after_reachable (events : list Event) : reachable (after events).
Proof.
  unfold after. destruct (run events start) as [session|] eqn:Hrun.
  - exact (run_reachable events reachable_start Hrun).
  - exact reachable_start.
Qed.

End RunFacts.

Section MoreExamples.

(** The service answers the enhancement with the habit tracker's text. *)
Lemma callGeminiApi_returns_first_part_witness :
  snd (Cases.gateway Demo.answering (lit "a habit tracker") default_modelName
         None (Cases.world_of Cases.enhanced))
  = Val (JStr Demo.habit_text).
Proof.
  refine (proj1 (proj1 (@callGeminiApi_returns_first_part Cases.engine
            Demo.answering (lit "a habit tracker") default_modelName None
            (Cases.world_of Cases.enhanced)
            {| status := 200; statusText := lit "OK";
               payload := BodyText Demo.envelope |}
            Demo.envelope Demo.envelope_value (JStr Demo.habit_text)
            _ _ _ _ _ _ _) _)).
  - reflexivity.
  - reflexivity.
  - reflexivity.
  - discriminate.
  - vm_compute. reflexivity.
  - vm_compute. reflexivity.
  - vm_compute. reflexivity.
  - reflexivity.
Defined.

(** The first part of the reply is the empty object. *)
Lemma callGeminiApi_part_without_text_witness :
  snd (Cases.gateway (Cases.replying Cases.textless_reply) (lit "a habit tracker")
         default_modelName None (Cases.world_of Cases.enhanced))
  = Val JUndef.
Proof.
  refine (proj1 (@callGeminiApi_part_without_text Cases.engine
            (Cases.replying Cases.textless_reply) (lit "a habit tracker")
            default_modelName (Cases.world_of Cases.enhanced)
            {| status := 200; statusText := lit "OK";
               payload := BodyText Cases.textless_reply |}
            Cases.textless_reply Cases.textless_value (JObj [])
            _ _ _ _ _ _ _ _ _)).
  - reflexivity.
  - reflexivity.
  - reflexivity.
  - discriminate.
  - vm_compute. reflexivity.
  - vm_compute. reflexivity.
  - vm_compute. reflexivity.
  - reflexivity.
  - reflexivity.
Defined.

(** An HTML page under status 200. *)
Lemma callGeminiApi_quotes_unparseable_body_witness :
  error (view (fst (Cases.gateway Cases.garbled (lit "a habit tracker")
                      default_modelName None (Cases.world_of Cases.enhanced))))
  = lit "Failed to connect to AI: "
    ++ (lit "AI returned invalid response format: "
        ++ lit "<html>Bad gateway</html>" ++ lit "... (Error: "
        ++ lit "Unexpected token < in JSON at position 0" ++ lit ")")
    ++ lit ". Please try again.".
Proof.
  refine (proj1 (proj2 (@callGeminiApi_quotes_unparseable_body Cases.engine
            Cases.garbled (lit "a habit tracker") default_modelName None
            (Cases.world_of Cases.enhanced)
            {| status := 200; statusText := lit "OK";
               payload := BodyText (lit "<html>Bad gateway</html>") |}
            (lit "<html>Bad gateway</html>")
            (lit "Unexpected token < in JSON at position 0")
            _ _ _ _ _))).
  - reflexivity.
  - reflexivity.
  - reflexivity.
  - discriminate.
  - vm_compute. reflexivity.
Defined.

(** The network is down. *)
Lemma callGeminiApi_reports_rejection_witness :
  error (view (fst (Cases.gateway Demo.offline (lit "a habit tracker")
                      default_modelName (Some techStackSchema)
                      (Cases.world_of Cases.enhanced))))
  = lit "Failed to connect to AI: " ++ lit "Failed to fetch"
    ++ lit ". Please try again.".
Proof.
  refine (proj2 (@callGeminiApi_reports_rejection Cases.engine Demo.offline
            (lit "a habit tracker") default_modelName (Some techStackSchema)
            (Cases.world_of Cases.enhanced) (JsError (lit "Failed to fetch")) _)).
  reflexivity.
Defined.

(** Status 429 with a reason in the body. *)
Lemma status_embedded_when_error_body_parses_witness :
  embeds (of_N 429)
    (error (view (fst (Cases.gateway Demo.throttling (lit "a habit tracker")
                         default_modelName None (Cases.world_of Cases.enhanced)))))
  /\ embeds (lit "Quota exceeded")
       (error (view (fst (Cases.gateway Demo.throttling (lit "a habit tracker")
                            default_modelName None
                            (Cases.world_of Cases.enhanced))))).
Proof.
  refine (proj2 (@status_embedded_when_error_body_parses Cases.engine
            Demo.throttling (lit "a habit tracker") default_modelName None
            (Cases.world_of Cases.enhanced)
            {| status := 429; statusText := lit "Too Many Requests";
               payload := BodyText Demo.quota_body |}
            Demo.quota_body (lit "Quota exceeded") Demo.quota_value
            _ _ _ _ _)).
  - reflexivity.
  - reflexivity.
  - reflexivity.
  - vm_compute. reflexivity.
  - vm_compute. reflexivity.
Defined.

(** Status 500 with the body [{}]. *)
Lemma callGeminiApi_falls_back_to_status_text_witness :
  error (view (fst (Cases.gateway Cases.failing_empty (lit "a habit tracker")
                      default_modelName None (Cases.world_of Cases.enhanced))))
  = lit "Failed to connect to AI: "
    ++ (lit "API error: " ++ of_N 500 ++ lit " - " ++ lit "Internal Server Error")
    ++ lit ". Please try again.".
Proof.
  refine (@callGeminiApi_falls_back_to_status_text Cases.engine
            Cases.failing_empty (lit "a habit tracker") default_modelName None
            (Cases.world_of Cases.enhanced)
            {| status := 500; statusText := lit "Internal Server Error";
               payload := BodyText (lit "{}") |}
            (lit "{}") (JObj []) JUndef _ _ _ _ _ _).
  - reflexivity.
  - reflexivity.
  - reflexivity.
  - vm_compute. reflexivity.
  - reflexivity.
  - reflexivity.
Defined.

(** The service answers the preview generation with a preview. *)
Lemma usable_result_is_stored_witness :
  appPreview
    (view (fst (handler (Cases.gateway
                           (Cases.replying (Cases.reply Cases.preview_json_quoted)))
                        Preview (Cases.world_of Cases.enhanced))))
  = Cases.preview_json_value.
Proof.
  refine (proj1 (proj2 (@usable_result_is_stored Cases.engine
            (Cases.gateway (Cases.replying (Cases.reply Cases.preview_json_quoted)))
            Preview (Cases.world_of Cases.enhanced)
            (fst (Cases.gateway
                    (Cases.replying (Cases.reply Cases.preview_json_quoted))
                    (appPreviewGenerationPrompt (lit "A habit tracker for teams."))
                    default_modelName (Some appPreviewSchema)
                    (with_view (enter Preview) (Cases.world_of Cases.enhanced))))
            (appPreviewGenerationPrompt (lit "A habit tracker for teams."))
            Cases.preview_json_value _ _ _))).
  - vm_compute. reflexivity.
  - vm_compute. reflexivity.
  - reflexivity.
Defined.

(** A gateway that throws, under the preview handler. *)
Lemma gateway_exception_caught_by_preview_only_witness :
  snd (handler Cases.throwing Preview (Cases.world_of Cases.enhanced)) = Val tt.
Proof.
  refine (proj1 (@gateway_exception_caught_by_preview_only Cases.engine
            Cases.throwing Preview (Cases.world_of Cases.enhanced)
            (with_view (enter Preview) (Cases.world_of Cases.enhanced))
            (appPreviewGenerationPrompt (lit "A habit tracker for teams."))
            (JsError (lit "gateway crashed")) _ _)).
  - vm_compute. reflexivity.
  - reflexivity.
Defined.

(** The key features of the preview are one string: [join] is not a
    function of it. *)
Lemma prompt_failure_leaves_flag_raised_witness :
  isLoadingTechStack
    (view (fst (handler (Cases.gateway Demo.answering) TechStack
                        (Cases.world_of Cases.oddly_previewed))))
  = true.
Proof.
  refine (proj1 (proj2 (@prompt_failure_leaves_flag_raised Cases.engine
            (Cases.gateway Demo.answering) TechStack
            (Cases.world_of Cases.oddly_previewed)
            (JsError (lit "appPreview.keyFeatures.join is not a function"))
            _ _))).
  - reflexivity.
  - vm_compute. reflexivity.
Defined.

(** The editable prompt is a string. *)
Lemma handler_completes_unless_prompt_throws_witness :
  snd (handler (Cases.gateway Demo.offline) Preview (Cases.world_of Cases.enhanced))
  = Val tt.
Proof.
  refine (proj2 (proj2 (@handler_completes_unless_prompt_throws Cases.engine
            Demo.offline Preview (Cases.world_of Cases.enhanced)))
            (lit "  A habit tracker for teams.  ") _).
  reflexivity.
Defined.

(** Names are asked for while strategies are on screen. *)
Lemma auxiliary_handler_touches_own_slot_only_witness :
  monetizationStrategies
    (view (fst (handler (Cases.gateway Demo.offline) Names
                        (Cases.world_of Cases.previewed))))
  = Cases.strategies.
Proof.
  destruct (@auxiliary_handler_touches_own_slot_only Cases.engine Demo.offline
              Names (Cases.world_of Cases.previewed) eq_refl)
    as [_ [_ [_ [_ [_ Hothers]]]]].
  refine (proj1 (Hothers Monetization _)). discriminate.
Defined.

(** The preview is generated again while follow-on results are on
    screen. *)
Lemma regeneration_clears_downstream_witness :
  appNamesSlogans
    (view (fst (handler (Cases.gateway Demo.offline) Preview
                        (Cases.world_of Cases.previewed))))
  = JNull.
Proof.
  refine (proj1 (@regeneration_clears_downstream Cases.engine Demo.offline
            Preview (Cases.world_of Cases.previewed)
            (appPreviewGenerationPrompt (lit "A habit tracker for teams."))
            _ _)).
  - reflexivity.
  - vm_compute. reflexivity.
Defined.

(** The network is down while a tech stack is asked for. *)
Lemma tech_stack_keeps_gateway_placeholder_witness :
  techStackSuggestions
    (view (fst (handler (Cases.gateway Demo.offline) TechStack
                        (Cases.world_of Cases.previewed))))
  = JObj []
  /\ shows_no_suggestions
       (view (fst (handler (Cases.gateway Demo.offline) TechStack
                           (Cases.world_of Cases.previewed))))
     = true.
Proof.
  destruct (@tech_stack_keeps_gateway_placeholder Cases.engine Demo.offline
              (Cases.world_of Cases.previewed)
              (techStackPrompt (lit "Tracks daily habits.")
                               (lit "streaks, reminders"))
              (JsError (lit "Failed to fetch")))
    as [Hslot [_ [_ [_ [_ Hline]]]]].
  - vm_compute. reflexivity.
  - reflexivity.
  - split; [exact Hslot | exact Hline].
Defined.

(** The service answers the enhancement with an empty text. *)
Lemma empty_enhancement_is_silent_witness :
  error
    (view (fst (handler (Cases.gateway
                           (Cases.replying (Cases.reply (dquote ++ dquote))))
                        Enhance (Cases.world_of Cases.enhanced))))
  = [].
Proof.
  refine (proj1 (@empty_enhancement_is_silent Cases.engine
            (Cases.replying (Cases.reply (dquote ++ dquote)))
            (Cases.world_of Cases.enhanced) (JStr []) _ _ _)).
  - reflexivity.
  - vm_compute. reflexivity.
  - reflexivity.
Defined.

(** The preview on screen lists two features. *)
Lemma tech_stack_prompt_lists_features_witness :
  prepare TechStack Cases.previewed
  = Val (Some (techStackPrompt (lit "Tracks daily habits.")
                 (lit "streaks" ++ lit ", " ++ lit "reminders"))).
Proof.
  refine (proj2 (@tech_stack_prompt_lists_features Cases.engine Cases.previewed
            [(lit "appName", JStr (lit "HabitFlow"));
             (lit "tagline", JStr (lit "Build better days"));
             (lit "description", JStr (lit "Tracks daily habits."));
             (lit "keyFeatures", JArr [JStr (lit "streaks"); JStr (lit "reminders")]);
             (lit "targetAudience", JStr (lit "busy professionals"))]
            (lit "Tracks daily habits.") _ _ _)
           [lit "streaks"; lit "reminders"] _).
  - reflexivity.
  - reflexivity.
  - discriminate.
  - reflexivity.
Defined.

(** The service answers the monetization with no strategy. *)
Lemma empty_strategies_stored_but_hidden_witness :
  shows_monetization
    (view (fst (handler (Cases.gateway
                           (Cases.replying
                              (Cases.reply Cases.no_strategies_json_quoted)))
                        Monetization (Cases.world_of Cases.previewed))))
  = Val false.
Proof.
  destruct (@empty_strategies_stored_but_hidden Cases.engine
              (Cases.replying (Cases.reply Cases.no_strategies_json_quoted))
              (Cases.world_of Cases.previewed)
              (monetizationPrompt (lit "Tracks daily habits."))
              (JObj [(lit "strategies", JArr [])]))
    as [_ [_ [_ [Hhidden _]]]].
  - vm_compute. reflexivity.
  - vm_compute. reflexivity.
  - reflexivity.
  - reflexivity.
  - exact Hhidden.
Defined.

(** After the busy story the preview is the one the service sent. *)
Lemma preview_stays_well_formed_witness :
  preview_well_formed (view (now (@after Cases.engine Stories.busy))).
Proof.
  apply (@preview_stays_well_formed Cases.engine). apply after_reachable.
Defined.

(** In the busy story names and tech stack are in flight, once each. *)
Lemma one_request_in_flight_witness :
  NoDup (map fst (inflight (@after Cases.engine Stories.busy))).
Proof.
  refine (proj1 (@one_request_in_flight Cases.engine _ _)).
  apply after_reachable.
Defined.

(** After the busy story the error is not the preview's guidance. *)
Lemma gated_buttons_never_show_guidance_witness :
  error (view (now (@after Cases.engine Stories.busy))) <> guidance Preview.
Proof.
  refine (proj1 (proj2 (@gated_buttons_never_show_guidance Cases.engine _ _))).
  apply after_reachable.
Defined.


(** The idea is typed and enhanced, one thing at a time. *)
Lemma calm_sessions_stay_consistent_witness :
  downstream_consistent (view (now (@after Cases.engine Stories.enhanced))).
Proof.
  refine (proj2 (@calm_sessions_stay_consistent Cases.engine _ _)).
  apply (@calm_operation Cases.engine (after Stories.typing)
           (after Stories.enhancing) (after Stories.enhanced)
           Enhance (Stories.answered Demo.envelope)).
  - apply (@calm_event Cases.engine start (after Stories.typing)
             (IdeaChanged (lit "a habit tracker"))).
    + apply calm_start.
    + vm_compute. reflexivity.
    + reflexivity.
  - vm_compute. reflexivity.
  - vm_compute. reflexivity.
Defined.

End MoreExamples.
